(** * Phoenix OS Cockpit: the execution-profile policy and the pre-sales helpers

  A shallow embedding of
  - [examples/research-agent.ts]   (class [ResearchAgent]),
  - [examples/typescript-fundamentals.ts] (class [TypeSafeAgent], [resolveModel]),
  - the pre-sales agent ([scoreLeadTool], [PreSalesAgent.formatFollowUpSequence]),
  - the mode test of [test-dev-mode.ts],
  followed by the properties the specification states about them. *)

From Stdlib Require Import ZArith QArith Qround Lia Lqa.
From stdpp Require Import base decidable option strings list gmap.

Local Open Scope Z_scope.

(** ** The JavaScript run time the sources rely on *)

Module JS.

(** A thrown [Error]: its [name] and its [message]. *)
Inductive JSError :=
| Thrown (name message : string).

(** How the evaluation of a call ends: with a value, or by a throw. *)
Inductive Completion (A : Type) :=
| Normal (a : A)
| Abrupt (e : JSError).
Arguments Normal {A} a.
Arguments Abrupt {A} e.

(** [s.repeat(n)] *)
Fixpoint repeat (s : string) (n : nat) : string :=
  match n with
  | O => EmptyString
  | S n' => s +:+ repeat s n'
  end.

(** [xs.join(sep)] *)
Fixpoint join (sep : string) (xs : list string) : string :=
  match xs with
  | [] => EmptyString
  | [x] => x
  | x :: rest => x +:+ sep +:+ join sep rest
  end.

(** [s.substring(0, n)], on the characters of the embedding. *)
Definition substring0 (n : nat) (s : string) : string := String.substring 0 n s.

(** [`${v}`] for a value that may be [undefined]. *)
Definition show (v : option string) : string := default "undefined" v.

(** [Math.floor] and [Math.round] (halves go up), on exact rationals. *)
Definition Math_floor (x : Q) : Z := Qfloor x.
Definition Math_round (x : Q) : Z := Qfloor (x + (1 # 2))%Q.

End JS.

(** ** examples/research-agent.ts *)

Module Research.
Import JS.

Record ResearchConfig := {
  topic : string;
  depth : string;            (* 'quick' | 'standard' | 'comprehensive' to the type checker *)
  includeCitations : bool;
  outputFormat : string;     (* 'summary' | 'detailed' | 'executive' to the type checker *)
}.

(** The object: one private field. *)
Record ResearchAgent := { config : ResearchConfig }.

Definition constructor (cfg : ResearchConfig) : ResearchAgent := {| config := cfg |}.

(** The argument of the SDK's [query]. *)
Record Options := {
  model : string;
  systemPrompt : string;
  allowedTools : list string;
  maxTurns : Z;
  settingSources : list string;
}.

Record QueryArgs := { prompt : string; options : Options }.

(** A streamed message, as [research] reads it: [message.type], [message.content]. *)
Record SDKMessage := { type : string; content : string }.

(** What the vendor's service answers to a call: the messages it streams and,
    when the stream breaks off, the error it throws after them. *)
Definition Sdk := QueryArgs -> list SDKMessage * option JSError.

(** The process a method runs in: the receiver [this], [process.env], what
    [console.log] has printed, the calls made to [query], and the reading of
    [new Date().toISOString()]. *)
Record Proc := {
  this : ResearchAgent;
  process_env : gmap string string;
  console : list string;
  queries : list QueryArgs;
  date_iso : string;
}.

Definition M (A : Type) : Type := Proc -> Completion A * Proc.

Definition ret {A} (a : A) : M A := fun p => (Normal a, p).

Definition bind {A B} (m : M A) (k : A -> M B) : M B :=
  fun p =>
    match m p with
    | (Normal a, p') => k a p'
    | (Abrupt e, p') => (Abrupt e, p')
    end.

Definition throw {A} (e : JSError) : M A := fun p => (Abrupt e, p).

#[export] Instance M_ret : MRet M := @ret.
#[export] Instance M_bind : MBind M := fun A B k m => bind m k.

Definition getThis : M ResearchAgent := fun p => (Normal (this p), p).

Definition getDate : M string := fun p => (Normal (date_iso p), p).

Definition console_log (line : string) : M unit :=
  fun p =>
    (Normal tt,
     {| this := this p; process_env := process_env p;
        console := console p ++ [line];
        queries := queries p; date_iso := date_iso p |}).

(** Records the outbound call; the answer is the service's. *)
Definition call_query (sdk : Sdk) (args : QueryArgs) : M (list SDKMessage * option JSError) :=
  fun p =>
    (Normal (sdk args),
     {| this := this p; process_env := process_env p;
        console := console p;
        queries := queries p ++ [args]; date_iso := date_iso p |}).

(** *** The methods of [ResearchAgent] *)

(** [getModelByDepth()]: the [switch] on [this.config.depth], [default] included. *)
Definition getModelByDepth : M string :=
  this ← getThis;
  let d := depth (config this) in
  if decide (d = "quick") then mret "claude-haiku-4-5-20251001"
  else if decide (d = "standard") then mret "claude-sonnet-4-5-20250929"
  else if decide (d = "comprehensive") then mret "claude-opus-4-1-20250805"
  else mret "claude-sonnet-4-5-20250929".

(** [getSearchIterations()] *)
Definition getSearchIterations : M Z :=
  this ← getThis;
  let d := depth (config this) in
  if decide (d = "quick") then mret 10
  else if decide (d = "standard") then mret 20
  else if decide (d = "comprehensive") then mret 40
  else mret 20.

(** [getFormatInstructions()]: a lookup in the object literal [formats]; a key
    it does not have reads as [undefined]. (Keys inherited from
    [Object.prototype] are not modelled.) *)
Definition formats : gmap string string :=
  {[ "summary" := "
Format as a concise summary:
- Executive overview (2-3 sentences)
- Key findings (bullet points)
- Conclusion (1-2 sentences)";
     "detailed" := "
Format as a detailed report:
- Executive Summary
- Background & Context
- Key Findings (with subsections)
- Analysis & Implications
- Recommendations
- Appendix (if needed)";
     "executive" := "
Format for executive audience:
- One-page overview
- Top 3 insights
- Business implications
- Recommended actions
- Risk factors" ]}.

Definition getFormatInstructions : M (option string) :=
  this ← getThis;
  mret (formats !! outputFormat (config this)).

(** [buildSystemPrompt()] *)
Definition buildSystemPrompt : M string :=
  this ← getThis;
  formatInstructions ← getFormatInstructions;
  mret ("You are an expert research analyst specializing in comprehensive information gathering and synthesis.

Your research methodology:

1. **Information Gathering Phase**
   - Start with broad searches to understand the landscape
   - Identify authoritative sources and key subtopics
   - Use progressive search refinement based on initial findings
   - Cross-reference information from multiple sources

2. **Analysis Phase**
   - Extract key facts, statistics, and insights
   - Identify patterns, trends, and relationships
   - Note conflicting information and assess credibility
   - Score confidence levels for each finding

3. **Synthesis Phase**
   - Organize information into logical categories
   - Create a narrative that connects findings
   - Highlight key insights and implications
   - Generate actionable recommendations

Research Quality Standards:
- " +:+ (if includeCitations (config this)
        then "ALWAYS cite sources with URLs"
        else "Summarize without citations") +:+ "
- Prioritize recent information (last 2 years when possible)
- Focus on authoritative sources
- Verify controversial or surprising claims
- Acknowledge limitations and gaps in available information

" +:+ "Output Format: " +:+ outputFormat (config this) +:+ "
" +:+ show formatInstructions).

(** [buildResearchPrompt()] *)
Definition depthInstructions : gmap string string :=
  {[ "quick" := "Provide a quick overview with 3-5 key points.";
     "standard" := "Conduct a standard research with 5-10 key findings and supporting details.";
     "comprehensive" := "Perform deep research with exhaustive coverage, multiple perspectives, and detailed analysis." ]}.

Definition buildResearchPrompt : M string :=
  this ← getThis;
  mret ("Research Topic: " +:+ topic (config this) +:+ "

" +:+ show (depthInstructions !! depth (config this)) +:+ "

Please follow the research methodology and quality standards defined in your instructions.").

(** [formatResults(results)] *)
Definition formatResults (results : list string) : M string :=
  this ← getThis;
  timestamp ← getDate;
  let divider := repeat "=" 60 in
  mret ("
" +:+ divider +:+ "
RESEARCH REPORT
Topic: " +:+ topic (config this) +:+ "
Generated: " +:+ timestamp +:+ "
Depth: " +:+ depth (config this) +:+ "
" +:+ divider +:+ "

" +:+ join "

" results +:+ "

" +:+ divider +:+ "
END OF REPORT
" +:+ divider).

(** The body of [for await (const message of query(...))]: the messages in
    turn, then the stream's error if it broke off. *)
Fixpoint for_await (stream : list SDKMessage) (failure : option JSError)
    (results : list string) : M (list string) :=
  match stream with
  | [] =>
      match failure with
      | None => mret results
      | Some e => throw e
      end
  | message :: rest =>
      if decide (type message = "assistant") then
        console_log ("
📄 Finding: " +:+ substring0 200 (content message) +:+ "...");;
        for_await rest failure (results ++ [content message])
      else for_await rest failure results
  end.

(** The object literal [research] hands to [query], its fields evaluated in
    source order after [searchIterations] and [systemPrompt]. *)
Definition queryArgs : M QueryArgs :=
  searchIterations ← getSearchIterations;
  systemPrompt ← buildSystemPrompt;
  prompt ← buildResearchPrompt;
  model ← getModelByDepth;
  mret {| prompt := prompt;
          options := {| model := model;
                        systemPrompt := systemPrompt;
                        allowedTools := ["WebSearch"; "WebFetch"; "Read"; "Write"; "Grep"];
                        maxTurns := searchIterations;
                        settingSources := ["project"] |} |}.

(** [research()] *)
Definition research (sdk : Sdk) : M string :=
  this ← getThis;
  console_log ("🔍 Starting research on: " +:+ topic (config this));;
  console_log ("📊 Depth: " +:+ depth (config this));;
  console_log ("📝 Format: " +:+ outputFormat (config this));;
  args ← queryArgs;
  '(stream, failure) ← call_query sdk args;
  results ← for_await stream failure [];
  formatResults results.

End Research.

(** *** The command line of [research-agent.ts] *)

Module ResearchCli.
Import JS Research.

(** What the run time and the vendor's service contribute: the answers of
    [query], the result of [companyName.replace(/\s+/g, '_')], and what
    [fs.promises.writeFile(fileName, data)] throws, if it does. *)
Record Host := {
  sdk : Sdk;
  replace_whitespace : string -> string;
  writeFile : string -> string -> option JSError;
}.

(** The process of the script: the part the agent runs in, what
    [console.error] has printed, the files written, and the decimal digits
    of [Date.now()]. *)
Record Sys := {
  proc : Proc;
  stderr : list string;
  files : gmap string string;
  date_now : string;
}.

Definition set_this (agent : ResearchAgent) (p : Proc) : Proc :=
  {| this := agent; process_env := process_env p; console := console p;
     queries := queries p; date_iso := date_iso p |}.

Definition set_proc (p : Proc) (s : Sys) : Sys :=
  {| proc := p; stderr := stderr s; files := files s; date_now := date_now s |}.

Definition set_files (fs : gmap string string) (s : Sys) : Sys :=
  {| proc := proc s; stderr := stderr s; files := fs; date_now := date_now s |}.

Definition console_error (line : string) (s : Sys) : Sys :=
  {| proc := proc s; stderr := stderr s ++ [line]; files := files s;
     date_now := date_now s |}.

(** [const agent = new ResearchAgent(cfg); await agent.research()]: the
    method runs with the new object as receiver. *)
Definition run_agent (host : Host) (cfg : ResearchConfig) (s : Sys)
    : Completion string * Sys :=
  let caller := this (proc s) in
  let '(outcome, p) := research (sdk host) (set_this (constructor cfg) (proc s)) in
  (outcome, set_proc (set_this caller p) s).

Definition companyConfig (companyName : string) : ResearchConfig :=
  {| topic := companyName +:+ " - company analysis including history, products, market position, financials, recent news, and competitive landscape";
     depth := "comprehensive";
     includeCitations := true;
     outputFormat := "detailed" |}.

Definition reportFileName (host : Host) (companyName now : string) : string :=
  "./reports/" +:+ replace_whitespace host companyName +:+ "_" +:+ now +:+ ".md".

(** [researchCompany(companyName)] *)
Definition researchCompany (host : Host) (companyName : string) (s : Sys)
    : Completion string * Sys :=
  match run_agent host (companyConfig companyName) s with
  | (Abrupt e, s1) => (Abrupt e, s1)
  | (Normal report, s1) =>
      let fileName := reportFileName host companyName (date_now s1) in
      match writeFile host fileName report with
      | Some e => (Abrupt e, s1)
      | None =>
          let s2 := set_files (<[fileName := report]> (files s1)) s1 in
          (Normal report,
           set_proc (snd (console_log ("
✅ Report saved to: " +:+ fileName) (proc s2))) s2)
      end
  end.

Definition marketConfig (industry : string) : ResearchConfig :=
  {| topic := industry +:+ " industry analysis - trends, key players, growth projections, challenges, and opportunities";
     depth := "standard";
     includeCitations := true;
     outputFormat := "executive" |}.

(** [analyzeMarket(industry)] *)
Definition analyzeMarket (host : Host) (industry : string) (s : Sys)
    : Completion string * Sys :=
  run_agent host (marketConfig industry) s.

Definition competitiveConfig (ourCompany : string) (competitors : list string)
    : ResearchConfig :=
  {| topic := "Competitive analysis comparing " +:+ ourCompany +:+ " with "
              +:+ join ", " competitors
              +:+ " - features, pricing, market share, strengths, weaknesses";
     depth := "comprehensive";
     includeCitations := true;
     outputFormat := "detailed" |}.

(** [competitiveAnalysis(ourCompany, competitors)] *)
Definition competitiveAnalysis (host : Host) (ourCompany : string)
    (competitors : list string) (s : Sys) : Completion string * Sys :=
  run_agent host (competitiveConfig ourCompany competitors) s.

(** [!args[1]]: a missing argument and the empty string are both falsy. *)
Definition falsy (arg : option string) : bool :=
  match arg with
  | None => true
  | Some a => bool_decide (a = EmptyString)
  end.

(** The double quote, for the help text. *)
Definition dq : string := String (Ascii.ascii_of_nat 34) EmptyString.

Definition help : string :=
  "
Phoenix OS Research Agent
========================

Usage:
  npm run research company <company-name>
  npm run research market <industry>
  npm run research competitive <our-company> <competitor1> [competitor2] ...

Examples:
  npm run research company " +:+ dq +:+ "Apple Inc" +:+ dq +:+ "
  npm run research market " +:+ dq +:+ "AI and Machine Learning" +:+ dq +:+ "
  npm run research competitive " +:+ dq +:+ "Our Company" +:+ dq +:+ " "
    +:+ dq +:+ "Competitor A" +:+ dq +:+ " " +:+ dq +:+ "Competitor B" +:+ dq +:+ "
      ".

(** Drops the value an awaited call returns. *)
Definition discard {A} (r : Completion A * Sys) : Completion unit * Sys :=
  match r with
  | (Normal _, s) => (Normal tt, s)
  | (Abrupt e, s) => (Abrupt e, s)
  end.

(** [main()], on [process.argv]. *)
Definition main (host : Host) (argv : list string) (s : Sys) : Completion unit * Sys :=
  let args := drop 2 argv in
  let command := args !! 0%nat in
  if decide (command = Some "company") then
    if falsy (args !! 1%nat)
    then (Normal tt, console_error "Usage: npm run research company <company-name>" s)
    else discard (researchCompany host (join " " (drop 1 args)) s)
  else if decide (command = Some "market") then
    if falsy (args !! 1%nat)
    then (Normal tt, console_error "Usage: npm run research market <industry>" s)
    else discard (analyzeMarket host (join " " (drop 1 args)) s)
  else if decide (command = Some "competitive") then
    if (length args <? 3)%nat
    then (Normal tt,
          console_error "Usage: npm run research competitive <our-company> <competitor1> [competitor2] ..." s)
    else discard (competitiveAnalysis host (show (args !! 1%nat)) (drop 2 args) s)
  else (Normal tt, set_proc (snd (console_log help (proc s))) s).

(** The argument lists for which [main] prints a usage line. *)
Definition incomplete (args : list string) : Prop :=
  ((args !! 0%nat = Some "company" \/ args !! 0%nat = Some "market") /\
   (args !! 1%nat = None \/ args !! 1%nat = Some EmptyString)) \/
  (args !! 0%nat = Some "competitive" /\ (length args < 3)%nat).

(** From [s] to [s'] one call was made, for one of the two rows of the
    table that the command line reaches. *)
Definition cli_profiles : list (string * Z) :=
  [("claude-sonnet-4-5-20250929", 20); ("claude-opus-4-1-20250805", 40)].

Definition adds_one_cli_call (s s' : Sys) : Prop :=
  exists args,
    queries (proc s') = queries (proc s) ++ [args] /\
    (model (options args), maxTurns (options args)) ∈ cli_profiles.

(** Replaces every run of spaces by one underscore: what the regular
    expression does to a name whose only white space is the space. *)
Fixpoint underscore_spaces (in_run : bool) (name : string) : string :=
  match name with
  | EmptyString => EmptyString
  | String c rest =>
      if Ascii.eqb c (Ascii.ascii_of_nat 32)
      then if in_run then underscore_spaces true rest
           else String (Ascii.ascii_of_nat 95) (underscore_spaces true rest)
      else String c (underscore_spaces false rest)
  end.

End ResearchCli.

(** *** The execution profile [research] works with *)

Module Profile.
Import JS Research.

(** [process.env.NODE_ENV === 'development'], the test of [test-dev-mode.ts]. *)
Inductive RuntimeMode := development | production.

Definition runtimeMode (p : Proc) : RuntimeMode :=
  if decide (process_env p !! "NODE_ENV" = Some "development")
  then development else production.

(** The four values of one run: the depth and the format the prompts are
    built from, and the model and the turn budget [research] computes for
    [query], obtained as [research] obtains them. *)
Record ExecutionProfile := {
  profile_depth : string;
  profile_outputFormat : string;
  profile_model : string;
  profile_maxTurns : Z;
}.

Definition resolveProfile : M ExecutionProfile :=
  this ← getThis;
  searchIterations ← getSearchIterations;
  model ← getModelByDepth;
  mret {| profile_depth := depth (config this);
          profile_outputFormat := outputFormat (config this);
          profile_model := model;
          profile_maxTurns := searchIterations |}.

End Profile.

(** ** examples/typescript-fundamentals.ts: [TypeSafeAgent] *)

Module TypeSafe.

Record AgentConfig := {
  name : string;
  model : string;              (* "haiku" | "sonnet" | "opus" to the type checker *)
  tools : list string;
  maxTurns : Z;
  systemPrompt : string;
}.

Record TypeSafeAgent := { config : AgentConfig }.

Definition modelMap : gmap string string :=
  {[ "haiku" := "claude-haiku-4-5-20251001";
     "sonnet" := "claude-sonnet-4-5-20250929";
     "opus" := "claude-opus-4-1-20250514" ]}.

(** [resolveModel()]: [None] is JavaScript's [undefined]. *)
Definition resolveModel (this : TypeSafeAgent) : option string :=
  modelMap !! model (config this).

End TypeSafe.

(** ** examples/typescript-fundamentals.ts: [TypeSafeAgent.execute] *)

Module TypeSafeExecute.
Import JS TypeSafe.

(** A content block: [block.type], and [block.text] where it has one. *)
Record ContentBlock := { block_type : string; text : option string }.

(** The messages of the SDK's union, as [execute] tells them apart: the tag
    [message.type] decides the shape. [Other] stands for every other tag. *)
Inductive SDKMessage :=
| Assistant (content : list ContentBlock)
| Result (subtype : string) (num_turns : Z) (total_cost_usd : Q) (duration_ms : Z)
         (errors : option (list string))
| Other (type : string).

Record Options := {
  opt_model : option string;        (* [undefined] when the tier is not in [modelMap] *)
  opt_allowedTools : list string;
  opt_maxTurns : Z;
  opt_systemPrompt : string;
}.

Record QueryArgs := { prompt : string; options : Options }.

Definition Sdk := QueryArgs -> list SDKMessage * option JSError.

Record Stats := { turns : Z; costUSD : Q; durationMs : Z }.

Record AgentResult := {
  success : bool;
  response : string;
  error : option string;
  stats : Stats;
}.

(** [textBlocks.map(b => b.text).join("\n")]; [join] prints [undefined] as
    the empty string. *)
Definition texts (content : list ContentBlock) : string :=
  join "
" (default EmptyString <$> (text <$> filter (fun block => block_type block = "text") content)).

(** One turn of the loop body, on the [result] object it updates. *)
Definition on_message (message : SDKMessage) (result : AgentResult) : AgentResult :=
  match message with
  | Assistant content =>
      {| success := success result;
         response := response result +:+ texts content;
         error := error result;
         stats := stats result |}
  | Result subtype num_turns total_cost_usd duration_ms errors =>
      let stats := {| turns := num_turns; costUSD := total_cost_usd;
                      durationMs := duration_ms |} in
      if decide (subtype = "success") then
        {| success := true; response := response result;
           error := error result; stats := stats |}
      else
        {| success := success result; response := response result;
           error := Some match errors with
                         | Some es => join ", " es
                         | None => "Unknown error"
                         end;
           stats := stats |}
  | Other _ => result
  end.

(** The [for await] loop over the messages received. *)
Fixpoint consume (stream : list SDKMessage) (result : AgentResult) : AgentResult :=
  match stream with
  | [] => result
  | message :: rest => consume rest (on_message message result)
  end.

(** [const options: Options = {...}] *)
Definition buildOptions (this : TypeSafeAgent) : Options :=
  {| opt_model := resolveModel this;
     opt_allowedTools := tools (config this);
     opt_maxTurns := maxTurns (config this);
     opt_systemPrompt := systemPrompt (config this) |}.

(** [execute(prompt)]: the [try] block runs the loop until the stream ends
    or throws; the [catch] stores the message of what was thrown. *)
Definition execute (sdk : Sdk) (this : TypeSafeAgent) (prompt : string) : AgentResult :=
  let result :=
    {| success := false; response := EmptyString; error := None;
       stats := {| turns := 0; costUSD := 0; durationMs := 0 |} |} in
  let '(stream, failure) := sdk {| prompt := prompt; options := buildOptions this |} in
  let result := consume stream result in
  match failure with
  | None => result
  | Some (Thrown _ message) =>
      {| success := success result; response := response result;
         error := Some message; stats := stats result |}
  end.

(** The result messages of a stream, and whether one is a success. *)
Definition is_result (message : SDKMessage) : bool :=
  match message with Result _ _ _ _ _ => true | _ => false end.

Definition is_success (message : SDKMessage) : bool :=
  match message with
  | Result subtype _ _ _ _ => bool_decide (subtype = "success")
  | _ => false
  end.

(** The text of the assistant messages of a stream, one after the other. *)
Fixpoint transcript (stream : list SDKMessage) : string :=
  match stream with
  | [] => EmptyString
  | Assistant content :: rest => texts content +:+ transcript rest
  | _ :: rest => transcript rest
  end.

End TypeSafeExecute.

(** ** The pre-sales agent *)

Module PreSales.
Import JS.

(** A number that passed [z.number()]: zod refuses [NaN], so what is left is a
    finite value (taken exactly) or an infinity. *)
Inductive JSNumber :=
| Finite (q : Q)
| PosInfinity
| NegInfinity.

(** [x > c] for a finite constant [c]. *)
Definition gt (x : JSNumber) (c : Q) : bool :=
  match x with
  | Finite q => negb (Qle_bool q c)
  | PosInfinity => true
  | NegInfinity => false
  end.

(** Truthiness of an optional number: [undefined] and zero are falsy. *)
Definition truthy (x : option JSNumber) : bool :=
  match x with
  | None => false
  | Some (Finite q) => negb (Qeq_bool q 0)
  | Some _ => true
  end.

Module LeadSchema.

Record DecisionMaker := {
  name : string;
  title : string;
  email : option string;
}.

Record Lead := {
  company_name : string;
  company_size : JSNumber;
  industry : string;
  budget : option JSNumber;
  timeline : string;
  pain_points : list string;
  decision_makers : list DecisionMaker;
  engagement_level : Q;
}.

End LeadSchema.

(** The input of the [score_lead] tool. The two levels are bounded by the
    schema, hence finite. *)
Record ScoreLeadInput := {
  company_size : JSNumber;
  budget : option JSNumber;
  timeline : string;
  engagement_level : Q;
  pain_point_match : Q;
  decision_maker_access : bool;
}.

(** [.min(0).max(10)] on the two levels; the other fields are unconstrained. *)
Definition schema_accepts (input : ScoreLeadInput) : Prop :=
  (0 <= engagement_level input /\ engagement_level input <= 10)%Q /\
  (0 <= pain_point_match input /\ pain_point_match input <= 10)%Q.

Record Factors := {
  f_company_size : JSNumber;
  f_budget : JSNumber + string;
  f_timeline : string;
  f_engagement : Q;
  f_pain_point_match : Q;
  f_decision_maker_access : bool;
}.

Record ScoreLeadOutput := {
  score : Z;
  recommendation : string;
  factors : Factors;
}.

(** Arithmetic on doubles: every operation returns its exact result rounded
    to a double by [fl]. The comparisons and [Math.round] are exact. *)
Section Doubles.
Variable fl : Q -> Q.

Definition add (x y : Q) : Q := fl (x + y).
Definition mul (x y : Q) : Q := fl (x * y).
Definition div (x y : Q) : Q := fl (x / y).

(** The blocks of the handler, each named by its comment in the source; a
    block takes the running [score] and returns it updated. *)

(** Company size score (max 20 points) *)
Definition company_size_score (input : ScoreLeadInput) (score : Q) : Q :=
  if gt (company_size input) 1000 then add score 20
  else if gt (company_size input) 100 then add score 15
  else if gt (company_size input) 10 then add score 10
  else add score 5.

(** Budget score (max 25 points) *)
Definition budget_score (input : ScoreLeadInput) (score : Q) : Q :=
  match budget input with
  | Some b =>
      if truthy (budget input) then
        if gt b 100000 then add score 25
        else if gt b 50000 then add score 20
        else if gt b 10000 then add score 15
        else add score 10
      else add score 5
  | None => add score 5
  end.

(** Timeline score (max 20 points): a [switch] without [default]. *)
Definition timeline_score (input : ScoreLeadInput) (score : Q) : Q :=
  if decide (timeline input = "immediate") then add score 20
  else if decide (timeline input = "quarter") then add score 15
  else if decide (timeline input = "year") then add score 10
  else if decide (timeline input = "exploring") then add score 5
  else score.

(** Engagement score (max 15 points) *)
Definition engagement_score (input : ScoreLeadInput) (score : Q) : Q :=
  add score (mul (div (engagement_level input) 10) 15).

(** Pain point match (max 15 points) *)
Definition pain_point_score (input : ScoreLeadInput) (score : Q) : Q :=
  add score (mul (div (pain_point_match input) 10) 15).

(** Decision maker access (max 5 points) *)
Definition decision_maker_score (input : ScoreLeadInput) (score : Q) : Q :=
  if decision_maker_access input then add score 5 else score.

(** [scoreLeadTool]: the handler passed to [tool]. *)
Definition scoreLeadTool (input : ScoreLeadInput) : ScoreLeadOutput :=
  let score := 0%Q in
  let score := company_size_score input score in
  let score := budget_score input score in
  let score := timeline_score input score in
  let score := engagement_score input score in
  let score := pain_point_score input score in
  let score := decision_maker_score input score in
  let finalScore := Z.min 100 (Math_round score) in
  let recommendation :=
    if 80 <=? finalScore then "🔥 Hot Lead - Immediate Action Required"
    else if 60 <=? finalScore then "✨ Warm Lead - High Priority"
    else if 40 <=? finalScore then "📊 Qualified Lead - Standard Follow-up"
    else "❄️ Cold Lead - Nurture Campaign" in
  {| score := finalScore;
     recommendation := recommendation;
     factors :=
       {| f_company_size := company_size input;
          f_budget := match budget input with
                      | Some b => if truthy (budget input) then inl b else inr "unknown"
                      | None => inr "unknown"
                      end;
          f_timeline := timeline input;
          f_engagement := engagement_level input;
          f_pain_point_match := pain_point_match input;
          f_decision_maker_access := decision_maker_access input |} |}.

End Doubles.

(** Rounding that changes nothing: arithmetic on exact rationals. *)
Definition no_rounding (x : Q) : Q := x.

Record Touchpoint := {
  number : Z;
  day : Z;
  channel : string;
  content : string;
}.

Record FollowUpSequence := {
  lead : string;
  created : string;
  touchpoints : list Touchpoint;
}.

(** One element of [sequence.map((content, index) => ...)]. *)
Definition touchpoint (index : nat) (content : string) : Touchpoint :=
  let i := Z.of_nat index in
  {| number := i + 1;
     day := Math_floor (inject_Z (i * 3)) + 1;
     channel := if i mod 3 =? 0 then "email"
                else if i mod 3 =? 1 then "linkedin"
                else "phone";
     content := content |}.

(** [formatFollowUpSequence(lead, sequence)]; [date_iso] is the reading of
    [new Date().toISOString()]. *)
Definition formatFollowUpSequence (date_iso : string)
    (lead : LeadSchema.Lead) (sequence : list string) : FollowUpSequence :=
  {| lead := LeadSchema.company_name lead;
     created := date_iso;
     touchpoints := imap touchpoint sequence |}.

End PreSales.

(** *** [PreSalesAgent.createFollowUpSequence] *)

Module FollowUp.
Import JS PreSales.

(** The argument of this call to [query]. *)
Record QueryArgs := {
  prompt : string;
  model : string;
  systemPrompt : string;
  allowedTools : list string;
  maxTurns : Z;
}.

(** What the method takes from outside: the answers of [query], the printing
    of a number in a template, and the reading of [new Date().toISOString()]. *)
Record Host := {
  sdk : QueryArgs -> list Research.SDKMessage * option JSError;
  number_to_string : Q -> string;
  date_iso : string;
}.

Definition systemPrompt_text : string :=
  "You are an expert sales engagement specialist.

Create personalized follow-up sequences that:
1. Are tailored to the lead's industry and role
2. Provide value in each interaction
3. Build relationship progressively
4. Include multiple touchpoints (email, LinkedIn, phone)
5. Have clear calls to action

Follow-up principles:
- Persistence without annoyance
- Value-first approach
- Social proof integration
- Urgency without pressure
- Personal but scalable

Generate 5-7 touchpoints over 2-3 weeks.".

(** The object literal handed to [query]. *)
Definition queryArgs (host : Host) (lead : LeadSchema.Lead) : QueryArgs :=
  let contact := LeadSchema.decision_makers lead !! 0%nat in
  {| prompt :=
       "Create a follow-up sequence for " +:+ LeadSchema.company_name lead +:+ ".

Lead context:
- Industry: " +:+ LeadSchema.industry lead +:+ "
- Timeline: " +:+ LeadSchema.timeline lead +:+ "
- Engagement level: " +:+ number_to_string host (LeadSchema.engagement_level lead) +:+ "/10
- Key contact: " +:+ show (LeadSchema.name <$> contact) +:+ " ("
         +:+ show (LeadSchema.title <$> contact) +:+ ")

Generate a multi-touch follow-up sequence with specific messages for each touchpoint.";
     model := "claude-haiku-4-5-20251001";
     systemPrompt := systemPrompt_text;
     allowedTools := ["Write"];
     maxTurns := 10 |}.

(** The loop: [sequence.push(message.content)] for the assistant messages. *)
Fixpoint collect (stream : list Research.SDKMessage) (sequence : list string)
    : list string :=
  match stream with
  | [] => sequence
  | message :: rest =>
      if decide (Research.type message = "assistant")
      then collect rest (sequence ++ [Research.content message])
      else collect rest sequence
  end.

(** [createFollowUpSequence(lead)]: the line it prints, and what it returns
    or throws. *)
Definition createFollowUpSequence (host : Host) (lead : LeadSchema.Lead)
    : list string * Completion FollowUpSequence :=
  let printed := ["📧 Creating follow-up sequence for: " +:+ LeadSchema.company_name lead] in
  let '(stream, failure) := sdk host (queryArgs host lead) in
  let sequence := collect stream [] in
  match failure with
  | Some e => (printed, Abrupt e)
  | None => (printed, Normal (formatFollowUpSequence (date_iso host) lead sequence))
  end.

End FollowUp.

(** ** The policy in the specification's words *)

Module Spec.
Import Profile.

Inductive Tier := fast | balanced | deepest.

(** The model ids the tiers stand for, after the comments of
    [getModelByDepth]: fast and cost-effective, balanced, most capable. *)
Definition tier_model (t : Tier) : string :=
  match t with
  | fast => "claude-haiku-4-5-20251001"
  | balanced => "claude-sonnet-4-5-20250929"
  | deepest => "claude-opus-4-1-20250805"
  end.

(** The depth enum. *)
Definition depths : list string := ["quick"; "standard"; "comprehensive"].

(** Production: the fixed lookup table. *)
Definition lookup_table : gmap string (Tier * Z) :=
  {[ "quick" := (fast, 10);
     "standard" := (balanced, 20);
     "comprehensive" := (deepest, 40) ]}.

(** Development: everything forced to its cheapest value. *)
Definition development_profile : ExecutionProfile :=
  {| profile_depth := "quick";
     profile_outputFormat := "summary";
     profile_model := tier_model fast;
     profile_maxTurns := 5 |}.

(** All the turn budgets and all the models of the two tables. *)
Definition table_turns : list Z := [5; 10; 20; 40].
Definition table_models : list string := tier_model <$> [fast; balanced; deepest].

(** Mapping the tiers of [TypeSafeAgent] to the depths of [ResearchAgent]:
    quick/haiku, standard/sonnet, comprehensive/opus. *)
Definition corresponding : list (string * string) :=
  [("quick", "haiku"); ("standard", "sonnet"); ("comprehensive", "opus")].

(** The recommendation thresholds on a score. *)
Definition recommendation_of (score : Z) : string :=
  if 80 <=? score then "🔥 Hot Lead - Immediate Action Required"
  else if 60 <=? score then "✨ Warm Lead - High Priority"
  else if 40 <=? score then "📊 Qualified Lead - Standard Follow-up"
  else "❄️ Cold Lead - Nurture Campaign".

End Spec.

(** ** Concrete runs *)

Module Runs.
Import JS Research.

(** A process that has just constructed its agent. *)
Definition boot (env : gmap string string) (cfg : ResearchConfig) : Proc :=
  {| this := constructor cfg;
     process_env := env;
     console := [];
     queries := [];
     date_iso := "2025-11-01T09:30:00.000Z" |}.

(** The agent of [test-dev-mode.ts], under [NODE_ENV=development]. *)
Definition testDevModeConfig : ResearchConfig :=
  {| topic := "Quick test: What is OpenAI?";
     depth := "comprehensive";
     includeCitations := true;
     outputFormat := "detailed" |}.

Definition devProc : Proc := boot {[ "NODE_ENV" := "development" ]} testDevModeConfig.

(** [analyzeMarket("AI")] under [NODE_ENV=production]. *)
Definition marketConfig : ResearchConfig :=
  {| topic := "AI industry analysis - trends, key players, growth projections, challenges, and opportunities";
     depth := "standard";
     includeCitations := true;
     outputFormat := "executive" |}.

Definition prodProc : Proc := boot {[ "NODE_ENV" := "production" ]} marketConfig.

(** A quick summary, as the README's "Quick Research (Haiku 4.5)" asks for. *)
Definition quickConfig : ResearchConfig :=
  {| topic := "OpenAI";
     depth := "quick";
     includeCitations := false;
     outputFormat := "summary" |}.

Definition quickProc : Proc := boot {[ "NODE_ENV" := "production" ]} quickConfig.

(** A depth the type checker would refuse, as an untyped caller can pass it. *)
Definition extremeConfig : ResearchConfig :=
  {| topic := "anything";
     depth := "extreme";
     includeCitations := false;
     outputFormat := "summary" |}.

Definition extremeProc : Proc := boot {[ "NODE_ENV" := "production" ]} extremeConfig.

(** The same request as [marketConfig] on another topic, in a process that
    has already printed and queried. *)
Definition busyProc : Proc :=
  {| this := constructor {| topic := "EV market"; depth := "standard";
                            includeCitations := false; outputFormat := "executive" |};
     process_env := {[ "NODE_ENV" := "production"; "ANTHROPIC_API_KEY" := "sk-ant" ]};
     console := ["earlier output"];
     queries := [];
     date_iso := "2025-12-24T18:00:00.000Z" |}.

(** A service that streams one system message and two findings. *)
Definition cannedSdk : Sdk :=
  fun _ => ([ {| type := "system"; content := "init" |};
              {| type := "assistant"; content := "First finding" |};
              {| type := "assistant"; content := "Second finding" |} ], None).

(** A [TypeSafeAgent] as [typescript-fundamentals.ts] builds it, on a given tier. *)
Definition tutor (tier : string) : TypeSafe.TypeSafeAgent :=
  {| TypeSafe.config :=
       {| TypeSafe.name := "TypeScriptTutor";
          TypeSafe.model := tier;
          TypeSafe.tools := [];
          TypeSafe.maxTurns := 5;
          TypeSafe.systemPrompt :=
            "You are a TypeScript expert who explains concepts clearly and concisely." |} |}.

(** The lead of [main]'s [proposal] command, as input of the scoring tool,
    with a pain-point match of 3.5. *)
Definition exampleInput : PreSales.ScoreLeadInput :=
  {| PreSales.company_size := PreSales.Finite 500;
     PreSales.budget := Some (PreSales.Finite 50000);
     PreSales.timeline := "quarter";
     PreSales.engagement_level := 7;
     PreSales.pain_point_match := 7 # 2;
     PreSales.decision_maker_access := true |}.

(** The lead of [main]'s [followup] command. *)
Definition followUpLead : PreSales.LeadSchema.Lead :=
  {| PreSales.LeadSchema.company_name := "Target Company";
     PreSales.LeadSchema.company_size := PreSales.Finite 200;
     PreSales.LeadSchema.industry := "Finance";
     PreSales.LeadSchema.budget := None;
     PreSales.LeadSchema.timeline := "immediate";
     PreSales.LeadSchema.pain_points := ["Compliance"; "Reporting"];
     PreSales.LeadSchema.decision_makers :=
       [ {| PreSales.LeadSchema.name := "Jane Doe";
            PreSales.LeadSchema.title := "VP of Operations";
            PreSales.LeadSchema.email := None |} ];
     PreSales.LeadSchema.engagement_level := 8 |}.

(** A service for [TypeSafeAgent.execute]: two assistant messages, the
    first with a tool call between its two texts, then a successful result. *)
Definition tutorSdk : TypeSafeExecute.Sdk :=
  fun _ =>
    ([ TypeSafeExecute.Other "system";
       TypeSafeExecute.Assistant
         [ {| TypeSafeExecute.block_type := "text"; TypeSafeExecute.text := Some "Types" |};
           {| TypeSafeExecute.block_type := "tool_use"; TypeSafeExecute.text := None |};
           {| TypeSafeExecute.block_type := "text"; TypeSafeExecute.text := Some "catch bugs" |} ];
       TypeSafeExecute.Assistant
         [ {| TypeSafeExecute.block_type := "text"; TypeSafeExecute.text := Some " early." |} ];
       TypeSafeExecute.Result "success" 1 (3 # 1000) 1200 None ],
     None).

(** The same, cut short by the turn limit and then by a broken connection. *)
Definition failingTutorSdk : TypeSafeExecute.Sdk :=
  fun _ =>
    ([ TypeSafeExecute.Assistant
         [ {| TypeSafeExecute.block_type := "text"; TypeSafeExecute.text := Some "Types" |} ];
       TypeSafeExecute.Result "error_max_turns" 5 (1 # 100) 900
         (Some ["max turns reached"; "aborted"]) ],
     Some (Thrown "Error" "socket hang up")).

(** A host whose service streams the canned findings and whose disk takes
    every file; and one whose service breaks off after the first message. *)
Definition cannedHost : ResearchCli.Host :=
  {| ResearchCli.sdk := cannedSdk;
     ResearchCli.replace_whitespace := ResearchCli.underscore_spaces false;
     ResearchCli.writeFile := fun _ _ => None |}.


(** The script as it starts. *)
Definition script : ResearchCli.Sys :=
  {| ResearchCli.proc := boot {[ "NODE_ENV" := "production" ]} quickConfig;
     ResearchCli.stderr := [];
     ResearchCli.files := ∅;
     ResearchCli.date_now := "1761989400000" |}.

(** A service that answers the follow-up request with three messages,
    a result message among them. *)
Definition followUpHost : FollowUp.Host :=
  {| FollowUp.sdk :=
       fun _ => ([ {| type := "assistant"; content := "Day 1 email" |};
                   {| type := "result"; content := "success" |};
                   {| type := "assistant"; content := "Day 4 note" |} ], None);
     FollowUp.number_to_string := fun _ => "8";
     FollowUp.date_iso := "2025-11-01T09:30:00.000Z" |}.

End Runs.

(** ** What a method may touch *)

Module Effects.
Import JS Research.

(** [m] returns normally, changes nothing, and its value depends on the
    receiver alone. *)
Definition reads_this {A} (m : M A) : Prop :=
  forall p q, this p = this q ->
    exists v, m p = (Normal v, p) /\ m q = (Normal v, q).

(** [sub] occurs in [s]. *)
Definition mentions (s sub : string) : Prop :=
  exists before after, s = before +:+ sub +:+ after.

(** From [p] to [p'] the only change is what was printed. *)
Definition only_prints (p p' : Proc) : Prop :=
  this p' = this p /\
  process_env p' = process_env p /\
  queries p' = queries p /\
  date_iso p' = date_iso p.

End Effects.

(** ** What [research] leaves behind *)

Module Streams.
Import JS Research.

(** The contents [research] pushes on [results]: those of the assistant
    messages, in stream order. *)
Definition findings (stream : list SDKMessage) : list string :=
  content <$> filter (fun message => type message = "assistant") stream.

(** The line printed for one finding. *)
Definition finding_line (c : string) : string :=
  "
📄 Finding: " +:+ substring0 200 c +:+ "...".

(** The three lines [research] prints on entry. *)
Definition header_lines (cfg : ResearchConfig) : list string :=
  [ "🔍 Starting research on: " +:+ topic cfg;
    "📊 Depth: " +:+ depth cfg;
    "📝 Format: " +:+ outputFormat cfg ].

(** [p] after [lines] were printed and [calls] were made. *)
Definition after (p : Proc) (lines : list string) (calls : list QueryArgs) : Proc :=
  {| this := this p;
     process_env := process_env p;
     console := console p ++ lines;
     queries := queries p ++ calls;
     date_iso := date_iso p |}.

End Streams.

(** ** Inputs of the scoring tool that differ in one answer *)

Module Leads.
Import PreSales.

(** [input] with other engagement and pain-point levels. *)
Definition with_levels (input : ScoreLeadInput) (engagement pain : Q) : ScoreLeadInput :=
  {| company_size := company_size input;
     budget := budget input;
     timeline := timeline input;
     engagement_level := engagement;
     pain_point_match := pain;
     decision_maker_access := decision_maker_access input |}.

(** [input] with another budget, or none. *)
Definition with_budget (input : ScoreLeadInput) (b : option JSNumber) : ScoreLeadInput :=
  {| company_size := company_size input;
     budget := b;
     timeline := timeline input;
     engagement_level := engagement_level input;
     pain_point_match := pain_point_match input;
     decision_maker_access := decision_maker_access input |}.

(** The best lead there is without a budget and without access to a
    decision maker. *)
Definition strongColdStart : ScoreLeadInput :=
  {| company_size := Finite 5000;
     budget := None;
     timeline := "immediate";
     engagement_level := 10;
     pain_point_match := 10;
     decision_maker_access := false |}.

End Leads.

(** * Properties *)

Import JS Research Profile Effects Runs.

(** ** How the methods of [ResearchAgent] run *)

(** Unfolds the monad down to functions on [Proc]. *)
Ltac run :=
  cbv [mbind mret M_bind M_ret bind ret getThis getDate throw].

Lemma getModelByDepth_quick p :
  depth (config (this p)) = "quick" ->
  getModelByDepth p = (Normal "claude-haiku-4-5-20251001", p).
Proof. intros H. unfold getModelByDepth. run. rewrite H. reflexivity. Qed.

Lemma getModelByDepth_standard p :
  depth (config (this p)) = "standard" ->
  getModelByDepth p = (Normal "claude-sonnet-4-5-20250929", p).
Proof. intros H. unfold getModelByDepth. run. rewrite H. reflexivity. Qed.

Lemma getModelByDepth_comprehensive p :
  depth (config (this p)) = "comprehensive" ->
  getModelByDepth p = (Normal "claude-opus-4-1-20250805", p).
Proof. intros H. unfold getModelByDepth. run. rewrite H. reflexivity. Qed.

Lemma getModelByDepth_default p :
  depth (config (this p)) ∉ Spec.depths ->
  getModelByDepth p = (Normal "claude-sonnet-4-5-20250929", p).
Proof.
  intros H. unfold getModelByDepth. run.
  repeat case_decide; try reflexivity; exfalso; apply H;
  match goal with E : _ = _ |- _ => rewrite E end; repeat constructor.
Qed.

Lemma getSearchIterations_quick p :
  depth (config (this p)) = "quick" -> getSearchIterations p = (Normal 10, p).
Proof. intros H. unfold getSearchIterations. run. rewrite H. reflexivity. Qed.

Lemma getSearchIterations_standard p :
  depth (config (this p)) = "standard" -> getSearchIterations p = (Normal 20, p).
Proof. intros H. unfold getSearchIterations. run. rewrite H. reflexivity. Qed.

Lemma getSearchIterations_comprehensive p :
  depth (config (this p)) = "comprehensive" -> getSearchIterations p = (Normal 40, p).
Proof. intros H. unfold getSearchIterations. run. rewrite H. reflexivity. Qed.

Lemma getSearchIterations_default p :
  depth (config (this p)) ∉ Spec.depths -> getSearchIterations p = (Normal 20, p).
Proof.
  intros H. unfold getSearchIterations. run.
  repeat case_decide; try reflexivity; exfalso; apply H;
  match goal with E : _ = _ |- _ => rewrite E end; repeat constructor.
Qed.

(** A depth is one of the three of the enum, or none of them. *)
Lemma depth_cases (d : string) :
  d = "quick" \/ d = "standard" \/ d = "comprehensive" \/ d ∉ Spec.depths.
Proof.
  destruct (decide (d = "quick")); [tauto|].
  destruct (decide (d = "standard")); [tauto|].
  destruct (decide (d = "comprehensive")); [tauto|].
  right; right; right. unfold Spec.depths. rewrite !elem_of_cons, elem_of_nil. tauto.
Qed.

(** [resolveProfile] is its two getters, run in the process it was given. *)
Lemma resolveProfile_run p m t :
  getModelByDepth p = (Normal m, p) ->
  getSearchIterations p = (Normal t, p) ->
  resolveProfile p =
    (Normal {| profile_depth := depth (config (this p));
               profile_outputFormat := outputFormat (config (this p));
               profile_model := m;
               profile_maxTurns := t |}, p).
Proof.
  intros Hm Ht. unfold resolveProfile. run. rewrite Ht, Hm. reflexivity.
Qed.

(** *** Methods that only read the receiver *)

Lemma reads_this_returns {A} (m : M A) p :
  reads_this m -> exists v, m p = (Normal v, p).
Proof. intros H. destruct (H p p eq_refl) as (v & Hv & _). eauto. Qed.

Lemma reads_this_bind {A B} (m : M A) (k : A -> M B) :
  reads_this m -> (forall a, reads_this (k a)) -> reads_this (m ≫= k).
Proof.
  intros Hm Hk p q Hpq. run.
  destruct (Hm p q Hpq) as (a & -> & ->).
  exact (Hk a p q Hpq).
Qed.

Lemma reads_this_ret {A} (a : A) : reads_this (mret a).
Proof. intros p q _. exists a. split; reflexivity. Qed.

Lemma reads_this_getThis : reads_this getThis.
Proof. intros p q H. exists (this p). unfold getThis. rewrite H. split; reflexivity. Qed.

Create HintDb readers.
#[local] Hint Resolve reads_this_ret reads_this_getThis : readers.

(** Splits a reader along its binds. *)
Ltac reader :=
  repeat first
    [ solve [ auto with readers ]
    | apply reads_this_bind; [ | intros ? ]
    | progress cbv zeta
    | case_decide ].

Lemma getModelByDepth_reads : reads_this getModelByDepth.
Proof. unfold getModelByDepth. reader. Qed.

Lemma getSearchIterations_reads : reads_this getSearchIterations.
Proof. unfold getSearchIterations. reader. Qed.

Lemma getFormatInstructions_reads : reads_this getFormatInstructions.
Proof. unfold getFormatInstructions. reader. Qed.

#[local] Hint Resolve getModelByDepth_reads getSearchIterations_reads
  getFormatInstructions_reads : readers.

Lemma buildSystemPrompt_reads : reads_this buildSystemPrompt.
Proof. unfold buildSystemPrompt. reader. Qed.

Lemma buildResearchPrompt_reads : reads_this buildResearchPrompt.
Proof. unfold buildResearchPrompt. reader. Qed.

#[local] Hint Resolve buildSystemPrompt_reads buildResearchPrompt_reads : readers.

Lemma resolveProfile_reads : reads_this resolveProfile.
Proof. unfold resolveProfile. reader. Qed.

Lemma queryArgs_reads : reads_this queryArgs.
Proof. unfold queryArgs. reader. Qed.

(** *** What the loop and [research] change *)

Lemma only_prints_refl p : only_prints p p.
Proof. repeat split. Qed.

Lemma only_prints_trans p q r : only_prints p q -> only_prints q r -> only_prints p r.
Proof.
  intros (H1 & H2 & H3 & H4) (K1 & K2 & K3 & K4).
  repeat split; congruence.
Qed.

Lemma console_log_only_prints line p : only_prints p (snd (console_log line p)).
Proof. repeat split. Qed.

Lemma for_await_only_prints stream failure :
  forall results p, only_prints p (snd (for_await stream failure results p)).
Proof.
  induction stream as [|message rest IH]; intros results p; simpl.
  - destruct failure; apply only_prints_refl.
  - case_decide; [|apply IH].
    run. simpl.
    eapply only_prints_trans; [|apply IH].
    apply console_log_only_prints.
Qed.

Lemma formatResults_returns results p :
  exists report, formatResults results p = (Normal report, p).
Proof. unfold formatResults. run. eauto. Qed.

(** [research] step by step: three lines printed, one call recorded with the
    arguments computed on entry, then the loop and the report. *)
Lemma research_run sdk p :
  exists args p1 p2,
    queryArgs p = (Normal args, p) /\
    only_prints p p1 /\
    this p2 = this p1 /\ process_env p2 = process_env p1 /\
    date_iso p2 = date_iso p1 /\ queries p2 = (queries p1 ++ [args]) /\
    only_prints p2 (snd (research sdk p)).
Proof.
  destruct (reads_this_returns queryArgs p queryArgs_reads) as (args & Hargs).
  unfold research. run. unfold console_log at 1 2 3.
  cbn [this process_env console queries date_iso].
  set (p1 := {| this := this p; process_env := process_env p;
                console := _; queries := queries p; date_iso := date_iso p |}).
  destruct (queryArgs_reads p p1 eq_refl) as (args' & Hp & Hp1).
  rewrite Hargs in Hp. injection Hp as <-. rewrite Hp1.
  unfold call_query. cbv beta iota.
  set (p2 := {| this := this p1; process_env := process_env p1;
                console := console p1; queries := queries p1 ++ [args];
                date_iso := date_iso p1 |}).
  exists args, p1, p2.
  split; [exact Hargs|]. split; [repeat split|].
  repeat (split; [reflexivity|]).
  destruct (sdk args) as [stream failure].
  pose proof (for_await_only_prints stream failure [] p2) as Hloop.
  destruct (for_await stream failure [] p2) as [[results|e] p3]; [|exact Hloop].
  destruct (formatResults_returns results p3) as (report & ->). exact Hloop.
Qed.

Lemma string_app_assoc (a b c : string) : (a +:+ b) +:+ c = a +:+ b +:+ c.
Proof.
  induction a as [|ch a IH]; [reflexivity|].
  change (String ch ((a +:+ b) +:+ c) = String ch (a +:+ b +:+ c)).
  now rewrite IH.
Qed.

Lemma mentions_fourth (a b c h x rest : string) :
  mentions (a +:+ b +:+ c +:+ h +:+ x +:+ rest) (h +:+ x).
Proof.
  exists (a +:+ b +:+ c), rest.
  now rewrite !string_app_assoc.
Qed.

(** The system prompt names the configured format. *)
Lemma buildSystemPrompt_format p :
  exists sp, buildSystemPrompt p = (Normal sp, p) /\
    mentions sp ("Output Format: " +:+ outputFormat (config (this p))).
Proof.
  unfold buildSystemPrompt, getFormatInstructions. run.
  eexists. split; [reflexivity|]. apply mentions_fourth.
Qed.

Lemma queryArgs_fields p :
  exists args sp,
    queryArgs p = (Normal args, p) /\
    buildSystemPrompt p = (Normal sp, p) /\
    systemPrompt (options args) = sp /\
    getModelByDepth p = (Normal (model (options args)), p) /\
    getSearchIterations p = (Normal (maxTurns (options args)), p).
Proof.
  destruct (reads_this_returns getSearchIterations p getSearchIterations_reads) as (t & Ht).
  destruct (reads_this_returns buildSystemPrompt p buildSystemPrompt_reads) as (sp & Hsp).
  destruct (reads_this_returns buildResearchPrompt p buildResearchPrompt_reads) as (pr & Hpr).
  destruct (reads_this_returns getModelByDepth p getModelByDepth_reads) as (m & Hm).
  unfold queryArgs. run. rewrite Ht, Hsp, Hpr, Hm.
  eexists _, sp. repeat split; assumption.
Qed.

(** *** The agents of the examples, run *)

Example analyzeMarket_prints :
  console (snd (research cannedSdk prodProc))
  = ["🔍 Starting research on: AI industry analysis - trends, key players, growth projections, challenges, and opportunities";
     "📊 Depth: standard";
     "📝 Format: executive";
     "
📄 Finding: First finding...";
     "
📄 Finding: Second finding..."].
Proof. vm_compute. reflexivity. Qed.

Example analyzeMarket_query :
  (fun a => (model (options a), maxTurns (options a), allowedTools (options a)))
    <$> queries (snd (research cannedSdk prodProc))
  = [("claude-sonnet-4-5-20250929", 20,
      ["WebSearch"; "WebFetch"; "Read"; "Write"; "Grep"])].
Proof. vm_compute. reflexivity. Qed.

(** A stream that breaks off makes [research] throw, after the call. *)
Example broken_stream_throws :
  let sdk : Sdk := fun _ => ([], Some (Thrown "Error" "max turns")) in
  fst (research sdk quickProc) = Abrupt (Thrown "Error" "max turns") /\
  length (queries (snd (research sdk quickProc))) = 1%nat.
Proof. vm_compute. auto. Qed.

(** ** The execution-profile policy *)

(** C1 (as the code has it). Under [NODE_ENV=development] the agent of
    [test-dev-mode.ts], which asks for a comprehensive, detailed research,
    still resolves to that request: the Opus model and 40 turns, not the
    development profile (quick, summary, Haiku, 5 turns); and these are the
    model and the turn budget of the one call [research] makes. *)
Theorem dev_mode_request_not_downgraded :
  runtimeMode devProc = development /\
  resolveProfile devProc =
    (Normal {| profile_depth := "comprehensive";
               profile_outputFormat := "detailed";
               profile_model := "claude-opus-4-1-20250805";
               profile_maxTurns := 40 |}, devProc) /\
  fst (resolveProfile devProc) <> Normal Spec.development_profile /\
  (model ∘ options) <$> queries (snd (research cannedSdk devProc))
    = ["claude-opus-4-1-20250805"] /\
  (maxTurns ∘ options) <$> queries (snd (research cannedSdk devProc)) = [40].
Proof.
  split; [reflexivity|].
  assert (resolveProfile devProc =
    (Normal {| profile_depth := "comprehensive";
               profile_outputFormat := "detailed";
               profile_model := "claude-opus-4-1-20250805";
               profile_maxTurns := 40 |}, devProc)) as E
    by (apply resolveProfile_run;
        [apply getModelByDepth_comprehensive | apply getSearchIterations_comprehensive];
        reflexivity).
  split; [exact E|]. split; [rewrite E; discriminate|].
  split; vm_compute; reflexivity.
Qed.

(** C2, amended. A depth outside the enum is not rejected: both getters
    return normally, with the Sonnet model and 20 turns of their [default]
    branches, and leave the process as it was. *)
Theorem unknown_depth_takes_default_branch p :
  depth (config (this p)) ∉ Spec.depths ->
  getModelByDepth p = (Normal "claude-sonnet-4-5-20250929", p) /\
  getSearchIterations p = (Normal 20, p) /\
  resolveProfile p =
    (Normal {| profile_depth := depth (config (this p));
               profile_outputFormat := outputFormat (config (this p));
               profile_model := "claude-sonnet-4-5-20250929";
               profile_maxTurns := 20 |}, p).
Proof.
  intros H.
  pose proof (getModelByDepth_default p H) as Hm.
  pose proof (getSearchIterations_default p H) as Ht.
  repeat split; [exact Hm | exact Ht | now apply resolveProfile_run].
Qed.

Lemma extreme_not_in_enum : depth (config (this extremeProc)) ∉ Spec.depths.
Proof.
  unfold Spec.depths. rewrite !elem_of_cons, elem_of_nil.
  intros [H|[H|[H|[]]]]; discriminate H.
Qed.

Lemma unknown_depth_takes_default_branch_witness :
  (depth (config (this extremeProc)) ∉ Spec.depths) /\
  getModelByDepth extremeProc = (Normal "claude-sonnet-4-5-20250929", extremeProc).
Proof.
  assert (depth (config (this extremeProc)) ∉ Spec.depths) as Hout
    by (refine (bool_decide_unpack _ _); vm_compute; exact I).
  split; [exact Hout|].
  exact (proj1 (unknown_depth_takes_default_branch extremeProc Hout)).
Defined.

(** C2 as stated fails: with depth "extreme" no error is signalled; the
    profile is resolved, silently, to the default model and turn count. *)
Lemma extreme_depth_is_not_rejected :
  (depth (config (this extremeProc)) ∉ Spec.depths) /\
  resolveProfile extremeProc =
    (Normal {| profile_depth := "extreme";
               profile_outputFormat := "summary";
               profile_model := "claude-sonnet-4-5-20250929";
               profile_maxTurns := 20 |}, extremeProc) /\
  ~ (exists e p', resolveProfile extremeProc = (Abrupt e, p')).
Proof.
  split; [exact extreme_not_in_enum|].
  assert (resolveProfile extremeProc =
    (Normal {| profile_depth := "extreme";
               profile_outputFormat := "summary";
               profile_model := "claude-sonnet-4-5-20250929";
               profile_maxTurns := 20 |}, extremeProc)) as E
    by (apply resolveProfile_run;
        [apply getModelByDepth_default | apply getSearchIterations_default];
        exact extreme_not_in_enum).
  split; [exact E|]. intros (e & p' & H). rewrite E in H. discriminate H.
Qed.

(** The production table holds exactly the three depths of the enum. *)
Lemma lookup_table_cases d tier turns :
  Spec.lookup_table !! d = Some (tier, turns) ->
  (d = "quick" /\ tier = Spec.fast /\ turns = 10) \/
  (d = "standard" /\ tier = Spec.balanced /\ turns = 20) \/
  (d = "comprehensive" /\ tier = Spec.deepest /\ turns = 40).
Proof.
  unfold Spec.lookup_table. intros H.
  destruct (decide (d = "quick")) as [->|Hq].
  { rewrite lookup_insert_eq in H. left. naive_solver. }
  rewrite lookup_insert_ne in H by congruence.
  destruct (decide (d = "standard")) as [->|Hs].
  { rewrite lookup_insert_eq in H. right; left. naive_solver. }
  rewrite lookup_insert_ne in H by congruence.
  destruct (decide (d = "comprehensive")) as [->|Hc].
  { rewrite lookup_singleton_eq in H. right; right. naive_solver. }
  rewrite lookup_singleton_ne in H by congruence. discriminate H.
Qed.

(** C3. In production mode the profile is the row of the fixed table for the
    requested depth (quick: fast tier, 10 turns; standard: balanced tier, 20;
    comprehensive: deepest tier, 40); depth and format are the requested ones,
    and the system prompt handed to [query] names the requested format. *)
Theorem production_profile_is_table_row p tier turns :
  runtimeMode p = production ->
  Spec.lookup_table !! depth (config (this p)) = Some (tier, turns) ->
  resolveProfile p =
    (Normal {| profile_depth := depth (config (this p));
               profile_outputFormat := outputFormat (config (this p));
               profile_model := Spec.tier_model tier;
               profile_maxTurns := turns |}, p) /\
  exists args,
    queryArgs p = (Normal args, p) /\
    mentions (systemPrompt (options args))
             ("Output Format: " +:+ outputFormat (config (this p))).
Proof.
  intros _ Hrow. split.
  - apply lookup_table_cases in Hrow.
    destruct Hrow as [(Hd & -> & ->)|[(Hd & -> & ->)|(Hd & -> & ->)]];
      apply resolveProfile_run; simpl;
      auto using getModelByDepth_quick, getModelByDepth_standard,
        getModelByDepth_comprehensive, getSearchIterations_quick,
        getSearchIterations_standard, getSearchIterations_comprehensive.
  - destruct (queryArgs_fields p) as (args & sp & Hargs & Hsp & Hfield & _).
    destruct (buildSystemPrompt_format p) as (sp' & Hsp' & Hm).
    rewrite Hsp in Hsp'. injection Hsp' as <-.
    exists args. rewrite Hfield. auto.
Qed.

Lemma production_profile_is_table_row_witness :
  runtimeMode prodProc = production /\
  Spec.lookup_table !! depth (config (this prodProc)) = Some (Spec.balanced, 20) /\
  resolveProfile prodProc =
    (Normal {| profile_depth := "standard";
               profile_outputFormat := "executive";
               profile_model := "claude-sonnet-4-5-20250929";
               profile_maxTurns := 20 |}, prodProc).
Proof.
  split; [reflexivity|]. split; [reflexivity|].
  exact (proj1 (production_profile_is_table_row prodProc Spec.balanced 20
                  eq_refl eq_refl)).
Defined.

(** C4. Whatever the configuration and the environment, the profile is
    resolved, its turn budget is positive and one of the table's budgets, and
    its model is one of the three tier models. *)
Theorem profile_values_come_from_tables p :
  exists profile,
    resolveProfile p = (Normal profile, p) /\
    0 < profile_maxTurns profile /\
    profile_maxTurns profile ∈ Spec.table_turns /\
    profile_model profile ∈ Spec.table_models.
Proof.
  unfold Spec.table_turns, Spec.table_models.
  destruct (depth_cases (depth (config (this p)))) as [H|[H|[H|H]]];
    eexists; (split; [apply resolveProfile_run|]);
    eauto using getModelByDepth_quick, getModelByDepth_standard,
      getModelByDepth_comprehensive, getModelByDepth_default,
      getSearchIterations_quick, getSearchIterations_standard,
      getSearchIterations_comprehensive, getSearchIterations_default;
    simpl; (split; [lia|]); split; rewrite !elem_of_cons; auto.
Qed.

(** C5. Two runs that agree on depth, format and mode resolve to the same
    profile, whatever else differs between the two processes, and neither run
    changes its process: nothing is printed and no call is made. *)
Theorem resolver_is_a_function_of_its_inputs p1 p2 :
  depth (config (this p1)) = depth (config (this p2)) ->
  outputFormat (config (this p1)) = outputFormat (config (this p2)) ->
  runtimeMode p1 = runtimeMode p2 ->
  exists profile,
    resolveProfile p1 = (Normal profile, p1) /\
    resolveProfile p2 = (Normal profile, p2) /\
    (resolveProfile ;; resolveProfile) p1 = (Normal profile, p1).
Proof.
  intros Hd Hf _.
  destruct (reads_this_returns getModelByDepth p1 getModelByDepth_reads) as (m & Hm1).
  destruct (reads_this_returns getSearchIterations p1 getSearchIterations_reads) as (t & Ht1).
  assert (getModelByDepth p2 = (Normal m, p2)) as Hm2.
  { revert Hm1. unfold getModelByDepth. run. rewrite Hd.
    repeat case_decide; intros [= <-]; reflexivity. }
  assert (getSearchIterations p2 = (Normal t, p2)) as Ht2.
  { revert Ht1. unfold getSearchIterations. run. rewrite Hd.
    repeat case_decide; intros [= <-]; reflexivity. }
  pose proof (resolveProfile_run p1 m t Hm1 Ht1) as E1.
  eexists. split; [exact E1|]. split.
  - rewrite Hd, Hf. apply resolveProfile_run; assumption.
  - run. rewrite E1. exact E1.
Qed.

Lemma resolver_is_a_function_of_its_inputs_witness :
  exists profile,
    resolveProfile prodProc = (Normal profile, prodProc) /\
    resolveProfile busyProc = (Normal profile, busyProc) /\
    (resolveProfile ;; resolveProfile) prodProc = (Normal profile, prodProc).
Proof.
  apply (resolver_is_a_function_of_its_inputs prodProc busyProc);
    reflexivity.
Defined.

(** C6. [research] makes exactly one call to [query], and the model and the
    turn budget in its options are the values [getModelByDepth] and
    [getSearchIterations] return, for every configuration and every answer of
    the service. *)
Theorem research_hands_profile_to_query sdk p :
  exists args,
    queries (snd (research sdk p)) = queries p ++ [args] /\
    getModelByDepth p = (Normal (model (options args)), p) /\
    getSearchIterations p = (Normal (maxTurns (options args)), p).
Proof.
  destruct (research_run sdk p)
    as (args & p1 & p2 & Hargs & (_ & _ & Hq1 & _) & _ & _ & _ & Hq2 & (_ & _ & Hq3 & _)).
  destruct (queryArgs_fields p) as (args' & sp & Hargs' & _ & _ & Hm & Ht).
  rewrite Hargs in Hargs'. injection Hargs' as <-.
  exists args. split; [|split; assumption].
  rewrite Hq3, Hq2, Hq1. reflexivity.
Qed.

(** C7. The constructor stores the configuration it is given, and no method
    changes it afterwards: [this.config] is the same after [research],
    [buildSystemPrompt], [buildResearchPrompt], [getModelByDepth],
    [getSearchIterations] and [formatResults] as before, whatever the service
    answers. The five methods other than [research] change nothing at all. *)
Theorem config_is_never_mutated sdk results cfg p :
  config (constructor cfg) = cfg /\
  config (this (snd (research sdk p))) = config (this p) /\
  config (this (snd (buildSystemPrompt p))) = config (this p) /\
  config (this (snd (buildResearchPrompt p))) = config (this p) /\
  config (this (snd (getModelByDepth p))) = config (this p) /\
  config (this (snd (getSearchIterations p))) = config (this p) /\
  config (this (snd (formatResults results p))) = config (this p) /\
  (snd (buildSystemPrompt p) = p /\ snd (buildResearchPrompt p) = p /\
   snd (getModelByDepth p) = p /\ snd (getSearchIterations p) = p /\
   snd (formatResults results p) = p).
Proof.
  split; [reflexivity|]. split.
  { destruct (research_run sdk p)
      as (args & p1 & p2 & _ & (H1 & _) & H2 & _ & _ & _ & (H3 & _)).
    congruence. }
  destruct (reads_this_returns _ p buildSystemPrompt_reads) as (v1 & ->).
  destruct (reads_this_returns _ p buildResearchPrompt_reads) as (v2 & ->).
  destruct (reads_this_returns _ p getModelByDepth_reads) as (v3 & ->).
  destruct (reads_this_returns _ p getSearchIterations_reads) as (v4 & ->).
  destruct (formatResults_returns results p) as (v5 & ->).
  repeat split.
Qed.

(** ** The two model tables *)

(** C9 (as the code has it). The tables agree on the Haiku and Sonnet tiers
    and disagree on the third: [TypeSafeAgent.resolveModel] maps opus to
    "claude-opus-4-1-20250514", [getModelByDepth] maps comprehensive to
    "claude-opus-4-1-20250805". *)
Theorem opus_ids_differ :
  ("comprehensive", "opus") ∈ Spec.corresponding /\
  TypeSafe.resolveModel (tutor "opus") = Some "claude-opus-4-1-20250514" /\
  getModelByDepth devProc = (Normal "claude-opus-4-1-20250805", devProc) /\
  "claude-opus-4-1-20250514" <> "claude-opus-4-1-20250805" /\
  (TypeSafe.resolveModel (tutor "haiku") = Some "claude-haiku-4-5-20251001" /\
   getModelByDepth quickProc = (Normal "claude-haiku-4-5-20251001", quickProc)) /\
  (TypeSafe.resolveModel (tutor "sonnet") = Some "claude-sonnet-4-5-20250929" /\
   getModelByDepth prodProc = (Normal "claude-sonnet-4-5-20250929", prodProc)).
Proof.
  split; [unfold Spec.corresponding; rewrite !elem_of_cons; auto|].
  repeat split; try reflexivity. discriminate.
Qed.

(** ** The pre-sales helpers *)

Import PreSales.

(** [Math.round] does not go below an integer the argument has reached. *)
Lemma Math_round_lower (z : Z) (x : Q) : (inject_Z z <= x)%Q -> z <= Math_round x.
Proof.
  intros H. unfold Math_round.
  rewrite <- (Qfloor_Z z). apply Qfloor_resp_le. lra.
Qed.

Section ScoreLead.

(** What is used of the rounding to doubles: it is monotone, and it leaves
    the integers a double holds exactly as they are. *)
Variable fl : Q -> Q.
Hypothesis fl_monotone : forall x y : Q, (x <= y)%Q -> (fl x <= fl y)%Q.
Hypothesis fl_integer :
  forall n : Z, Z.abs n <= 2 ^ 53 -> (fl (inject_Z n) == inject_Z n)%Q.

(** Rounding stays between two such integers. *)
Lemma fl_between (a b : Z) (x : Q) :
  Z.abs a <= 2 ^ 53 -> Z.abs b <= 2 ^ 53 ->
  (inject_Z a <= x /\ x <= inject_Z b)%Q ->
  (inject_Z a <= fl x /\ fl x <= inject_Z b)%Q.
Proof.
  intros Ha Hb [Hlo Hhi]. split.
  - rewrite <- (fl_integer a Ha). now apply fl_monotone.
  - rewrite <- (fl_integer b Hb). now apply fl_monotone.
Qed.

(** Closes a goal [lo <= fl x <= hi] with integer bounds from bounds on [x]. *)
Ltac between lo hi :=
  apply (fl_between lo hi); [lia | lia | unfold inject_Z; split; lra].

Lemma company_size_score_range input s :
  (0 <= s /\ s <= 0)%Q ->
  (5 <= company_size_score fl input s /\ company_size_score fl input s <= 20)%Q.
Proof.
  intros [H0 H1]. unfold company_size_score, add.
  repeat match goal with |- context [if ?c then _ else _] => destruct c end;
    between 5 20.
Qed.

Lemma budget_score_range input s :
  (5 <= s /\ s <= 20)%Q ->
  (10 <= budget_score fl input s /\ budget_score fl input s <= 45)%Q.
Proof.
  intros [H0 H1]. unfold budget_score, add.
  destruct (budget input) as [b|];
    repeat match goal with |- context [if ?c then _ else _] => destruct c end;
    between 10 45.
Qed.

Lemma timeline_score_range input s :
  (10 <= s /\ s <= 45)%Q ->
  (10 <= timeline_score fl input s /\ timeline_score fl input s <= 65)%Q.
Proof.
  intros [H0 H1]. unfold timeline_score, add.
  repeat case_decide; try between 10 65. split; lra.
Qed.

(** A level term: between 0 and 15 after each of its two roundings. *)
Lemma level_points (x : Q) :
  (0 <= x /\ x <= 10)%Q ->
  (0 <= mul fl (div fl x 10) 15 /\ mul fl (div fl x 10) 15 <= 15)%Q.
Proof.
  intros [H0 H10]. unfold mul, div.
  destruct (fl_between 0 1 (x / 10)) as [L U]; [lia | lia | |].
  { assert (x / 10 == x * (1 # 10))%Q as -> by field. unfold inject_Z. split; lra. }
  unfold inject_Z in L, U. between 0 15.
Qed.

Lemma engagement_score_range input s :
  schema_accepts input ->
  (10 <= s /\ s <= 65)%Q ->
  (10 <= engagement_score fl input s /\ engagement_score fl input s <= 80)%Q.
Proof.
  intros [He _] [H0 H1]. apply level_points in He. destruct He as [L U].
  unfold engagement_score, add. between 10 80.
Qed.

Lemma pain_point_score_range input s :
  schema_accepts input ->
  (10 <= s /\ s <= 80)%Q ->
  (10 <= pain_point_score fl input s /\ pain_point_score fl input s <= 95)%Q.
Proof.
  intros [_ Hp] [H0 H1]. apply level_points in Hp. destruct Hp as [L U].
  unfold pain_point_score, add. between 10 95.
Qed.

Lemma decision_maker_score_range input s :
  (10 <= s /\ s <= 95)%Q ->
  (10 <= decision_maker_score fl input s /\ decision_maker_score fl input s <= 100)%Q.
Proof.
  intros [H0 H1]. unfold decision_maker_score, add.
  destruct (decision_maker_access input); [between 10 100 | split; lra].
Qed.

(** C8. For an input the schema accepts, the score is an integer between 10
    and 100, and the recommendation is the one the thresholds 80, 60 and 40
    give for that score. This holds however the arithmetic rounds, as long as
    the rounding is monotone and exact on the integers a double holds. *)
Theorem score_lead_range input :
  schema_accepts input ->
  10 <= score (scoreLeadTool fl input) <= 100 /\
  recommendation (scoreLeadTool fl input)
    = Spec.recommendation_of (score (scoreLeadTool fl input)).
Proof.
  intros Hok. split; [|reflexivity].
  unfold scoreLeadTool. cbv zeta. cbn [score].
  split; [|apply Z.le_min_l].
  apply Z.min_glb; [lia|]. apply Math_round_lower.
  apply decision_maker_score_range, pain_point_score_range; [exact Hok|].
  apply engagement_score_range; [exact Hok|].
  apply timeline_score_range, budget_score_range, company_size_score_range.
  split; lra.
Qed.

End ScoreLead.

Lemma score_lead_range_witness :
  schema_accepts exampleInput /\
  score (scoreLeadTool no_rounding exampleInput) = 66 /\
  10 <= score (scoreLeadTool no_rounding exampleInput) <= 100.
Proof.
  assert (schema_accepts exampleInput) as Hok
    by (unfold schema_accepts, Qle; simpl; lia).
  split; [exact Hok|]. split; [reflexivity|].
  exact (proj1 (score_lead_range no_rounding (fun x y H => H)
                  (fun n _ => Qeq_refl (inject_Z n)) exampleInput Hok)).
Defined.

Example four_touchpoints :
  (fun t => (number t, day t, channel t, content t))
    <$> touchpoints (formatFollowUpSequence "2025-11-01T09:30:00.000Z" followUpLead
                       ["intro"; "connect"; "call"; "case study"])
  = [(1, 1, "email", "intro"); (2, 4, "linkedin", "connect");
     (3, 7, "phone", "call"); (4, 10, "email", "case study")].
Proof. vm_compute. reflexivity. Qed.

(** [index % 3] on the natural number that [index] is. *)
Lemma channel_by_remainder (i : nat) :
  (if Z.of_nat i mod 3 =? 0 then "email"
   else if Z.of_nat i mod 3 =? 1 then "linkedin" else "phone")
  = match (i mod 3)%nat with
    | 0%nat => "email"
    | 1%nat => "linkedin"
    | _ => "phone"
    end.
Proof.
  change 3 with (Z.of_nat 3). rewrite <- Nat2Z.inj_mod.
  pose proof (Nat.mod_upper_bound i 3 ltac:(lia)) as Hlt.
  destruct (i mod 3)%nat as [|[|[|r]]]; try reflexivity. lia.
Qed.

(** C10. [formatFollowUpSequence] returns as many touchpoints as it was given
    strings; the one at index [i] has number [i + 1], day [3 * i + 1], channel
    email, linkedin or phone as [i mod 3] is 0, 1 or 2, and the [i]-th string
    as content. *)
Theorem follow_up_touchpoints date_iso lead (sequence : list string) :
  length (touchpoints (formatFollowUpSequence date_iso lead sequence)) = length sequence /\
  forall i : nat,
    touchpoints (formatFollowUpSequence date_iso lead sequence) !! i
    = (fun c : string =>
         {| number := Z.of_nat i + 1;
            day := 3 * Z.of_nat i + 1;
            channel := match (i mod 3)%nat with
                       | 0%nat => "email"
                       | 1%nat => "linkedin"
                       | _ => "phone"
                       end;
            content := c |}) <$> sequence !! i.
Proof.
  cbn [touchpoints formatFollowUpSequence]. split; [apply length_imap|].
  intros i. rewrite list_lookup_imap.
  destruct (sequence !! i) as [c|]; [|reflexivity].
  cbn [fmap option_fmap option_map]. f_equal.
  unfold touchpoint. cbv zeta. unfold Math_floor.
  rewrite Qfloor_Z, channel_by_remainder. f_equal. lia.
Qed.

(** * Further properties of the sources *)

(** ** [research]: the stream, the report and the console *)

Import Streams.

Lemma after_nothing p : after p [] [] = p.
Proof. destruct p. unfold after. cbn. now rewrite !app_nil_r. Qed.

Lemma after_after p l1 c1 l2 c2 :
  after (after p l1 c1) l2 c2 = after p (l1 ++ l2) (c1 ++ c2).
Proof. unfold after. cbn. now rewrite !app_assoc. Qed.

(** The loop: every assistant message is pushed and printed, the others are
    skipped, and a failure of the stream is thrown after the last message. *)
Lemma for_await_spec stream failure :
  forall results p,
    for_await stream failure results p =
      (match failure with
       | None => Normal (results ++ findings stream)
       | Some e => Abrupt e
       end,
       after p (finding_line <$> findings stream) []).
Proof.
  induction stream as [|message rest IH]; intros results p.
  - cbn. rewrite after_nothing, app_nil_r. now destruct failure.
  - cbn [for_await]. unfold findings. rewrite filter_cons. case_decide.
    + run. unfold console_log. rewrite IH.
      cbn [fmap list_fmap]. fold (findings rest).
      rewrite <- app_assoc. f_equal.
      unfold after. cbn. now rewrite <- !app_assoc, app_nil_r.
    + apply IH.
Qed.

(** [formatResults] reads the receiver and the clock only. *)
Lemma formatResults_after results p lines calls :
  formatResults results (after p lines calls)
  = (fst (formatResults results p), after p lines calls).
Proof. reflexivity. Qed.

(** [research] from entry to return. *)
Lemma research_spec sdk p args stream failure :
  queryArgs p = (Normal args, p) ->
  sdk args = (stream, failure) ->
  research sdk p =
    (match failure with
     | None => fst (formatResults (findings stream) p)
     | Some e => Abrupt e
     end,
     after p (header_lines (config (this p)) ++ (finding_line <$> findings stream))
             [args]).
Proof.
  intros Hargs Hsdk. unfold research. run. unfold console_log at 1 2 3.
  cbn [this process_env console queries date_iso].
  set (p1 := {| this := this p; process_env := process_env p;
                console := _; queries := queries p; date_iso := date_iso p |}).
  destruct (queryArgs_reads p p1 eq_refl) as (args' & Hp & Hp1).
  rewrite Hargs in Hp. injection Hp as <-. rewrite Hp1.
  unfold call_query. rewrite Hsdk. cbv beta iota.
  rewrite for_await_spec.
  assert (forall calls lines,
    after {| this := this p1; process_env := process_env p1; console := console p1;
             queries := queries p1 ++ calls; date_iso := date_iso p1 |} lines []
    = after p (header_lines (config (this p)) ++ lines) calls) as Hst.
  { intros calls lines. unfold after, header_lines, p1. cbn.
    now rewrite <- !app_assoc, app_nil_r. }
  rewrite Hst. destruct failure as [e|]; [reflexivity|].
  rewrite app_nil_l. apply formatResults_after.
Qed.







(** *** Strings that occur in the report *)

Lemma string_app_nil_r (s : string) : s +:+ EmptyString = s.
Proof.
  induction s as [|ch s IH]; [reflexivity|].
  change (String ch (s +:+ EmptyString) = String ch s). now rewrite IH.
Qed.








(** *** The preview of a finding *)




(** *** What [query] is called with *)

Lemma queryArgs_rest p :
  exists args,
    queryArgs p = (Normal args, p) /\
    allowedTools (options args) = ["WebSearch"; "WebFetch"; "Read"; "Write"; "Grep"] /\
    settingSources (options args) = ["project"] /\
    buildSystemPrompt p = (Normal (systemPrompt (options args)), p) /\
    buildResearchPrompt p = (Normal (prompt args), p).
Proof.
  destruct (reads_this_returns getSearchIterations p getSearchIterations_reads) as (t & Ht).
  destruct (reads_this_returns buildSystemPrompt p buildSystemPrompt_reads) as (sp & Hsp).
  destruct (reads_this_returns buildResearchPrompt p buildResearchPrompt_reads) as (pr & Hpr).
  destruct (reads_this_returns getModelByDepth p getModelByDepth_reads) as (m & Hm).
  unfold queryArgs. run. rewrite Ht, Hsp, Hpr, Hm.
  eexists. repeat split.
Qed.

(** X6. The one call [research] makes always names the same five tools
    (WebSearch, WebFetch, Read, Write, Grep) and the project settings, and
    carries the prompts that [buildSystemPrompt] and [buildResearchPrompt]
    return, whatever the configuration and the answer of the service. *)
Theorem research_query_tools_and_prompts sdk p :
  exists args,
    queries (snd (research sdk p)) = queries p ++ [args] /\
    allowedTools (options args) = ["WebSearch"; "WebFetch"; "Read"; "Write"; "Grep"] /\
    settingSources (options args) = ["project"] /\
    buildSystemPrompt p = (Normal (systemPrompt (options args)), p) /\
    buildResearchPrompt p = (Normal (prompt args), p).
Proof.
  destruct (queryArgs_rest p) as (args & Hargs & Hrest).
  exists args. split; [|exact Hrest].
  destruct (sdk args) as [stream failure] eqn:Hsdk.
  now rewrite (research_spec sdk p args stream failure Hargs Hsdk).
Qed.

(** *** Values outside the two object literals *)








(** ** The scoring tool: how the score moves with the answers *)

Import Leads.

Lemma Math_round_monotone (x y : Q) : (x <= y)%Q -> Math_round x <= Math_round y.
Proof. intros H. unfold Math_round. apply Qfloor_resp_le. lra. Qed.

(** [Math.round] does not go above an integer that bounds the argument. *)
Lemma Math_round_upper (z : Z) (x : Q) : (x <= inject_Z z)%Q -> Math_round x <= z.
Proof.
  intros H. unfold Math_round.
  pose proof (Qfloor_le (x + (1 # 2))) as Hf.
  apply Z.lt_succ_r. rewrite Zlt_Qlt. unfold Z.succ. rewrite inject_Z_plus.
  change (inject_Z 1) with 1%Q. lra.
Qed.

Section ScoreMoves.

Variable fl : Q -> Q.
Hypothesis fl_monotone : forall x y : Q, (x <= y)%Q -> (fl x <= fl y)%Q.
Hypothesis fl_integer :
  forall n : Z, Z.abs n <= 2 ^ 53 -> (fl (inject_Z n) == inject_Z n)%Q.

Ltac within lo hi :=
  apply (fl_between fl fl_monotone fl_integer lo hi);
    [lia | lia | unfold inject_Z; split; lra].

Lemma add_monotone (s s' c c' : Q) :
  (s <= s')%Q -> (c <= c')%Q -> (add fl s c <= add fl s' c')%Q.
Proof. intros Hs Hc. unfold add. apply fl_monotone. lra. Qed.

Lemma level_term_monotone (x y : Q) :
  (x <= y)%Q -> (mul fl (div fl x 10) 15 <= mul fl (div fl y 10) 15)%Q.
Proof.
  intros H. unfold mul, div. apply fl_monotone.
  assert (fl (x / 10) <= fl (y / 10))%Q as Hd.
  { apply fl_monotone.
    assert (x / 10 == x * (1 # 10))%Q as -> by field.
    assert (y / 10 == y * (1 # 10))%Q as -> by field. lra. }
  lra.
Qed.

Lemma decision_maker_score_monotone input (s s' : Q) :
  (s <= s')%Q ->
  (decision_maker_score fl input s <= decision_maker_score fl input s')%Q.
Proof.
  intros H. unfold decision_maker_score.
  destruct (decision_maker_access input); [apply add_monotone; lra | exact H].
Qed.

Lemma timeline_score_monotone input (s s' : Q) :
  (s <= s')%Q -> (timeline_score fl input s <= timeline_score fl input s')%Q.
Proof.
  intros H. unfold timeline_score.
  repeat case_decide; try (apply add_monotone; lra). exact H.
Qed.

(** X9. Raising the engagement level or the pain-point match never lowers
    the score, however the arithmetic rounds. *)
Theorem score_grows_with_levels input (e m : Q) :
  (engagement_level input <= e)%Q ->
  (pain_point_match input <= m)%Q ->
  score (scoreLeadTool fl input) <= score (scoreLeadTool fl (with_levels input e m)).
Proof.
  intros He Hm. unfold scoreLeadTool. cbv zeta. cbn [score].
  apply Z.min_le_compat_l, Math_round_monotone.
  unfold decision_maker_score at 1 2. cbn [decision_maker_access with_levels].
  assert (pain_point_score fl input
            (engagement_score fl input
               (timeline_score fl input
                  (budget_score fl input (company_size_score fl input 0))))
          <= pain_point_score fl (with_levels input e m)
               (engagement_score fl (with_levels input e m)
                  (timeline_score fl (with_levels input e m)
                     (budget_score fl (with_levels input e m)
                        (company_size_score fl (with_levels input e m) 0)))))%Q as Hraw.
  { unfold pain_point_score, engagement_score. cbn [pain_point_match engagement_level with_levels].
    apply add_monotone; [|now apply level_term_monotone].
    apply add_monotone; [|now apply level_term_monotone].
    apply Qle_refl. }
  destruct (decision_maker_access input); [apply add_monotone; lra | exact Hraw].
Qed.

(** X10. A budget of zero counts as no budget at all: the tool returns the
    same score, recommendation and factors (budget 'unknown') as for a lead
    whose budget is missing. *)
Theorem zero_budget_is_unknown input (q : Q) :
  (q == 0)%Q ->
  scoreLeadTool fl (with_budget input (Some (Finite q)))
  = scoreLeadTool fl (with_budget input None).
Proof.
  intros Hq. apply Qeq_bool_iff in Hq.
  unfold scoreLeadTool, budget_score. cbn [budget with_budget truthy].
  rewrite Hq. reflexivity.
Qed.

(** X11. Stating a budget never costs points: with any budget that is not
    zero, negative ones included, the score is at least the score of the
    same lead without a budget. *)
Theorem stated_budget_never_scores_lower input (b : JSNumber) :
  truthy (Some b) = true ->
  score (scoreLeadTool fl (with_budget input None))
  <= score (scoreLeadTool fl (with_budget input (Some b))).
Proof.
  intros Hb. unfold scoreLeadTool. cbv zeta. cbn [score].
  apply Z.min_le_compat_l, Math_round_monotone.
  repeat match goal with
         | |- context [decision_maker_score fl (with_budget input ?o) ?s] =>
             change (decision_maker_score fl (with_budget input o) s)
               with (decision_maker_score fl input s)
         | |- context [pain_point_score fl (with_budget input ?o) ?s] =>
             change (pain_point_score fl (with_budget input o) s)
               with (pain_point_score fl input s)
         | |- context [engagement_score fl (with_budget input ?o) ?s] =>
             change (engagement_score fl (with_budget input o) s)
               with (engagement_score fl input s)
         | |- context [timeline_score fl (with_budget input ?o) ?s] =>
             change (timeline_score fl (with_budget input o) s)
               with (timeline_score fl input s)
         | |- context [company_size_score fl (with_budget input ?o) ?s] =>
             change (company_size_score fl (with_budget input o) s)
               with (company_size_score fl input s)
         end.
  apply decision_maker_score_monotone.
  unfold pain_point_score, engagement_score.
  apply add_monotone; [|apply Qle_refl].
  apply add_monotone; [|apply Qle_refl].
  apply timeline_score_monotone.
  unfold budget_score. cbn [budget with_budget]. rewrite Hb.
  repeat match goal with |- context [if ?c then _ else _] => destruct c end;
    apply add_monotone; solve [apply Qle_refl | lra].
Qed.

Lemma unknown_budget_range input s :
  truthy (budget input) = false ->
  (5 <= s /\ s <= 20)%Q ->
  (10 <= budget_score fl input s /\ budget_score fl input s <= 25)%Q.
Proof.
  intros Hb [H0 H1]. unfold budget_score, add. rewrite Hb.
  destruct (budget input); within 10 25.
Qed.

Lemma timeline_after_unknown_budget input s :
  (10 <= s /\ s <= 25)%Q ->
  (10 <= timeline_score fl input s /\ timeline_score fl input s <= 45)%Q.
Proof.
  intros [H0 H1]. unfold timeline_score, add.
  repeat case_decide; try within 10 45. split; lra.
Qed.

(** X12. A lead with no budget (or a budget of zero) and without access to
    a decision maker is never rated hot: its score is at most 75. *)
Theorem no_budget_no_access_is_never_hot input :
  schema_accepts input ->
  truthy (budget input) = false ->
  decision_maker_access input = false ->
  score (scoreLeadTool fl input) <= 75 /\
  recommendation (scoreLeadTool fl input) <> "🔥 Hot Lead - Immediate Action Required".
Proof.
  intros [He Hp] Hb Hd.
  assert (score (scoreLeadTool fl input) <= 75) as Hle.
  { unfold scoreLeadTool. cbv zeta. cbn [score].
    etransitivity; [apply Z.le_min_r|]. apply Math_round_upper.
    unfold decision_maker_score. rewrite Hd.
    pose proof (company_size_score_range fl fl_monotone fl_integer input 0
                  ltac:(split; lra)) as H1.
    apply (unknown_budget_range input _ Hb) in H1.
    apply (timeline_after_unknown_budget input) in H1.
    apply (level_points fl fl_monotone fl_integer) in He, Hp.
    set (t := timeline_score fl input _) in *.
    assert (10 <= engagement_score fl input t /\ engagement_score fl input t <= 60)%Q as H2.
    { unfold engagement_score, add. destruct He, H1. within 10 60. }
    set (g := engagement_score fl input t) in *.
    unfold pain_point_score, add. destruct Hp, H2.
    apply (fl_between fl fl_monotone fl_integer 10 75);
      [lia | lia | unfold inject_Z; split; lra]. }
  split; [exact Hle|].
  revert Hle. unfold scoreLeadTool. cbv zeta. cbn [score recommendation].
  set (f := Z.min 100 _). intros Hle.
  destruct (80 <=? f) eqn:E; [apply Z.leb_le in E; lia|].
  repeat match goal with |- context [if ?c then _ else _] => destruct c end;
    discriminate.
Qed.

End ScoreMoves.

Lemma score_grows_with_levels_witness :
  score (scoreLeadTool no_rounding exampleInput)
  <= score (scoreLeadTool no_rounding (with_levels exampleInput 9 (9 # 2))).
Proof.
  apply (score_grows_with_levels no_rounding (fun x y H => H) exampleInput 9 (9 # 2));
    unfold Qle; simpl; lia.
Defined.

Lemma zero_budget_is_unknown_witness :
  scoreLeadTool no_rounding (with_budget exampleInput (Some (Finite (0 # 7))))
  = scoreLeadTool no_rounding (with_budget exampleInput None).
Proof.
  apply (zero_budget_is_unknown no_rounding exampleInput (0 # 7)). reflexivity.
Defined.

Lemma stated_budget_never_scores_lower_witness :
  score (scoreLeadTool no_rounding (with_budget exampleInput None))
  <= score (scoreLeadTool no_rounding (with_budget exampleInput (Some (Finite (-(500)))))).
Proof.
  apply (stated_budget_never_scores_lower no_rounding (fun x y H => H)
           exampleInput (Finite (-(500)))).
  reflexivity.
Defined.

Lemma no_budget_no_access_is_never_hot_witness :
  score (scoreLeadTool no_rounding strongColdStart) <= 75.
Proof.
  refine (proj1 (no_budget_no_access_is_never_hot no_rounding (fun x y H => H)
                   (fun n _ => Qeq_refl (inject_Z n)) strongColdStart _ _ _)).
  - unfold schema_accepts, Qle; simpl; lia.
  - reflexivity.
  - reflexivity.
Defined.

(** ** The follow-up sequence: neighbouring touchpoints *)

(** X13. Two touchpoints that follow each other are numbered consecutively,
    lie three days apart and never use the same channel. *)
Theorem consecutive_touchpoints date_iso lead (sequence : list string) (i : nat) t1 t2 :
  touchpoints (formatFollowUpSequence date_iso lead sequence) !! i = Some t1 ->
  touchpoints (formatFollowUpSequence date_iso lead sequence) !! S i = Some t2 ->
  number t2 = number t1 + 1 /\
  day t2 = day t1 + 3 /\
  channel t2 <> channel t1.
Proof.
  cbn [touchpoints formatFollowUpSequence]. rewrite !list_lookup_imap.
  destruct (sequence !! i) as [c1|]; [|discriminate].
  destruct (sequence !! S i) as [c2|]; [|discriminate].
  cbn [fmap option_fmap option_map]. intros [= <-] [= <-].
  unfold touchpoint. cbv zeta. cbn [number day channel]. unfold Math_floor.
  rewrite !Qfloor_Z. split; [lia|]. split; [lia|].
  rewrite Nat2Z.inj_succ.
  repeat match goal with
         | |- context [?a =? ?b] => destruct (Z.eqb_spec a b)
         end;
    try discriminate; exfalso; Z.div_mod_to_equations; lia.
Qed.

Lemma consecutive_touchpoints_witness :
  exists t1 t2,
    touchpoints (formatFollowUpSequence "2025-11-01T09:30:00.000Z" followUpLead
                   ["intro"; "connect"; "call"]) !! 1%nat = Some t1 /\
    touchpoints (formatFollowUpSequence "2025-11-01T09:30:00.000Z" followUpLead
                   ["intro"; "connect"; "call"]) !! 2%nat = Some t2 /\
    day t2 = day t1 + 3.
Proof.
  eexists _, _. split; [reflexivity|]. split; [reflexivity|].
  exact (proj1 (proj2 (consecutive_touchpoints "2025-11-01T09:30:00.000Z" followUpLead
                         ["intro"; "connect"; "call"] 1 _ _ eq_refl eq_refl))).
Defined.

(** ** [TypeSafeAgent.execute]: what the result records *)

Section Execute.
Import TypeSafeExecute.

Lemma consume_response stream : forall result,
  response (consume stream result) = response result +:+ transcript stream.
Proof.
  induction stream as [|message rest IH]; intros result; cbn [consume transcript].
  - now rewrite string_app_nil_r.
  - rewrite IH. destruct message as [content|subtype n c d es|t]; cbn [on_message].
    + cbn [response]. apply string_app_assoc.
    + now case_decide.
    + reflexivity.
Qed.

Lemma consume_success stream : forall result,
  success (consume stream result) = success result || existsb is_success stream.
Proof.
  induction stream as [|message rest IH]; intros result; cbn [consume existsb].
  - now rewrite orb_false_r.
  - rewrite IH. destruct message as [content|subtype n c d es|t]; cbn [on_message is_success].
    + reflexivity.
    + case_decide as Hs.
      * rewrite (bool_decide_eq_true_2 _ Hs). cbn. now rewrite orb_true_r.
      * rewrite (bool_decide_eq_false_2 _ Hs). reflexivity.
    + reflexivity.
Qed.

Lemma consume_error stream : forall result,
  error (consume stream result) = None <->
  error result = None /\
  forallb (fun message => implb (is_result message) (is_success message)) stream = true.
Proof.
  induction stream as [|message rest IH]; intros result; cbn [consume forallb].
  - tauto.
  - rewrite IH, andb_true_iff.
    destruct message as [content|subtype n c d es|t]; cbn [on_message is_result is_success implb].
    + cbn [error]. tauto.
    + case_decide as Hs.
      * rewrite (bool_decide_eq_true_2 _ Hs). cbn [error]. tauto.
      * rewrite (bool_decide_eq_false_2 _ Hs). cbn [error].
        split; [intros [[=] _] | intros [_ [[=] _]]].
    + tauto.
Qed.

Lemma consume_no_result stream : forall result,
  forallb (fun message => negb (is_result message)) stream = true ->
  stats (consume stream result) = stats result.
Proof.
  induction stream as [|message rest IH]; intros result Hno; [reflexivity|].
  cbn [forallb] in Hno. apply andb_true_iff in Hno as [Hm Hrest].
  cbn [consume]. rewrite (IH _ Hrest).
  destruct message; [reflexivity | discriminate Hm | reflexivity].
Qed.

Lemma consume_app s1 s2 : forall result,
  consume (s1 ++ s2) result = consume s2 (consume s1 result).
Proof. induction s1 as [|m s1 IH]; intros result; [reflexivity|]. cbn. apply IH. Qed.

(** X14. The response [execute] returns is the text of the assistant
    messages in stream order: within one message the text blocks are joined
    by a newline and blocks of any other type are left out; from one message
    to the next nothing is put in between. The text gathered is kept when
    the stream breaks off. *)
Theorem execute_response_is_transcript sdk this prompt stream failure :
  sdk {| prompt := prompt; options := buildOptions this |} = (stream, failure) ->
  response (execute sdk this prompt) = transcript stream.
Proof.
  intros Hsdk. unfold execute. rewrite Hsdk.
  pose proof (consume_response stream
    {| success := false; response := EmptyString; error := None;
       stats := {| turns := 0; costUSD := 0; durationMs := 0 |} |}) as H.
  cbn [response] in H.
  destruct failure as [[name message]|]; cbn [response]; exact H.
Qed.

Lemma execute_response_is_transcript_witness :
  response (execute tutorSdk (tutor "haiku") "What are the benefits of using TypeScript?")
  = "Types
catch bugs early.".
Proof.
  exact (execute_response_is_transcript tutorSdk (tutor "haiku") _ _ _ eq_refl).
Defined.

(** X15. [execute] reports success exactly when the stream holds a result
    message of subtype "success"; a later failing result or a broken stream
    does not take it back. *)
Theorem execute_success_iff sdk this prompt stream failure :
  sdk {| prompt := prompt; options := buildOptions this |} = (stream, failure) ->
  success (execute sdk this prompt) = existsb is_success stream.
Proof.
  intros Hsdk. unfold execute. rewrite Hsdk.
  pose proof (consume_success stream
    {| success := false; response := EmptyString; error := None;
       stats := {| turns := 0; costUSD := 0; durationMs := 0 |} |}) as H.
  cbn [success orb] in H.
  destruct failure as [[name message]|]; cbn [success]; exact H.
Qed.

Lemma execute_success_iff_witness :
  success (execute failingTutorSdk (tutor "haiku") "What is TypeScript?") = false.
Proof.
  exact (execute_success_iff failingTutorSdk (tutor "haiku") _ _ _ eq_refl).
Defined.

(** X16. When the stream ends normally, [execute] leaves [error] at [null]
    exactly when every result message of the stream is a success; when the
    stream throws, [error] is the message of what was thrown, whatever the
    result messages said. *)
Theorem execute_error_field sdk this prompt stream failure :
  sdk {| prompt := prompt; options := buildOptions this |} = (stream, failure) ->
  match failure with
  | None =>
      error (execute sdk this prompt) = None <->
      forallb (fun message => implb (is_result message) (is_success message)) stream = true
  | Some (Thrown _ message) => error (execute sdk this prompt) = Some message
  end.
Proof.
  intros Hsdk. unfold execute. rewrite Hsdk.
  destruct failure as [[name message]|]; [reflexivity|].
  rewrite consume_error. cbn [error]. tauto.
Qed.

Lemma execute_error_field_witness :
  error (execute failingTutorSdk (tutor "haiku") "What is TypeScript?")
  = Some "socket hang up".
Proof.
  exact (execute_error_field failingTutorSdk (tutor "haiku") _ _ _ eq_refl).
Defined.

(** X17. The statistics [execute] returns are those of the last result
    message of the stream: its turns, cost and duration. *)
Theorem execute_stats_of_last_result sdk this prompt failure
    before subtype num_turns total_cost_usd duration_ms errors rest :
  sdk {| prompt := prompt; options := buildOptions this |}
    = (before ++ Result subtype num_turns total_cost_usd duration_ms errors :: rest,
       failure) ->
  forallb (fun message => negb (is_result message)) rest = true ->
  stats (execute sdk this prompt)
  = {| turns := num_turns; costUSD := total_cost_usd; durationMs := duration_ms |}.
Proof.
  intros Hsdk Hrest. unfold execute. rewrite Hsdk.
  set (r0 := {| success := false; response := EmptyString; error := None;
                stats := {| turns := 0; costUSD := 0; durationMs := 0 |} |}).
  assert (stats (consume (before ++ Result subtype num_turns total_cost_usd
                                      duration_ms errors :: rest) r0)
          = {| turns := num_turns; costUSD := total_cost_usd;
               durationMs := duration_ms |}) as H.
  { rewrite consume_app. cbn [consume]. rewrite (consume_no_result rest _ Hrest).
    cbn [on_message]. now case_decide. }
  destruct failure as [[name message]|]; cbn [stats]; exact H.
Qed.

Lemma execute_stats_of_last_result_witness :
  stats (execute tutorSdk (tutor "haiku") "What are the benefits of using TypeScript?")
  = {| turns := 1; costUSD := 3 # 1000; durationMs := 1200 |}.
Proof.
  exact (execute_stats_of_last_result tutorSdk (tutor "haiku") _ None
           [ Other "system";
             Assistant [ {| block_type := "text"; text := Some "Types" |};
                         {| block_type := "tool_use"; text := None |};
                         {| block_type := "text"; text := Some "catch bugs" |} ];
             Assistant [ {| block_type := "text"; text := Some " early." |} ] ]
           "success" 1 (3 # 1000) 1200 None [] eq_refl eq_refl).
Defined.

End Execute.

(** ** The command line of the research agent *)

Section Cli.
Import ResearchCli.

(** An agent run from the script: one call, for the model and the turns of
    the configured depth; nothing but the console and the calls changes. *)
Lemma run_agent_spec host cfg s :
  exists args outcome lines,
    run_agent host cfg s
    = (outcome,
       set_proc (after (proc s) lines [args]) s) /\
    getModelByDepth (set_this (constructor cfg) (proc s))
    = (Normal (model (options args)), set_this (constructor cfg) (proc s)) /\
    getSearchIterations (set_this (constructor cfg) (proc s))
    = (Normal (maxTurns (options args)), set_this (constructor cfg) (proc s)).
Proof.
  set (p := set_this (constructor cfg) (proc s)).
  destruct (queryArgs_fields p) as (args & sp & Hargs & _ & _ & Hm & Ht).
  destruct (sdk host args) as [stream failure] eqn:Hsdk.
  exists args. eexists _, _. split; [|split; [exact Hm | exact Ht]].
  unfold run_agent. fold p.
  rewrite (research_spec (sdk host) p args stream failure Hargs Hsdk).
  reflexivity.
Qed.

Lemma cli_profile_of cfg p args :
  depth cfg = "standard" \/ depth cfg = "comprehensive" ->
  getModelByDepth (set_this (constructor cfg) p)
  = (Normal (model (options args)), set_this (constructor cfg) p) ->
  getSearchIterations (set_this (constructor cfg) p)
  = (Normal (maxTurns (options args)), set_this (constructor cfg) p) ->
  (model (options args), maxTurns (options args)) ∈ cli_profiles.
Proof.
  intros [Hd|Hd] Hm Ht.
  - rewrite getModelByDepth_standard in Hm by exact Hd.
    rewrite getSearchIterations_standard in Ht by exact Hd.
    injection Hm as <-. injection Ht as <-. unfold cli_profiles. constructor.
  - rewrite getModelByDepth_comprehensive in Hm by exact Hd.
    rewrite getSearchIterations_comprehensive in Ht by exact Hd.
    injection Hm as <-. injection Ht as <-. unfold cli_profiles. do 2 constructor.
Qed.

Lemma run_agent_adds_one host cfg s :
  depth cfg = "standard" \/ depth cfg = "comprehensive" ->
  adds_one_cli_call s (snd (run_agent host cfg s)).
Proof.
  intros Hd. destruct (run_agent_spec host cfg s) as (args & outcome & lines & -> & Hm & Ht).
  exists args. split; [reflexivity|]. exact (cli_profile_of cfg (proc s) args Hd Hm Ht).
Qed.

Lemma researchCompany_adds_one host companyName s :
  adds_one_cli_call s (snd (researchCompany host companyName s)).
Proof.
  unfold researchCompany.
  pose proof (run_agent_adds_one host (companyConfig companyName) s
                ltac:(right; reflexivity)) as H.
  destruct (run_agent host (companyConfig companyName) s) as [[report|e] s1]; [|exact H].
  destruct (writeFile host _ report); exact H.
Qed.

Lemma discard_state {A} (r : Completion A * Sys) : snd (discard r) = snd r.
Proof. now destruct r as [[a|e] s]. Qed.

(** X18. From the command line the quick tier cannot be reached: whatever
    the arguments, [main] makes no call or one call to [query], and that
    call asks for Sonnet with 20 turns or for Opus with 40. *)
Theorem main_never_runs_quick host argv s :
  queries (proc (snd (main host argv s))) = queries (proc s) \/
  exists args,
    queries (proc (snd (main host argv s))) = queries (proc s) ++ [args] /\
    (model (options args), maxTurns (options args)) ∈ cli_profiles.
Proof.
  unfold main. cbv zeta.
  repeat case_decide;
    repeat match goal with |- context [if ?c then _ else _] => destruct c end;
    try (left; reflexivity); right; rewrite discard_state.
  - apply researchCompany_adds_one.
  - apply run_agent_adds_one. left; reflexivity.
  - apply run_agent_adds_one. right; reflexivity.
Qed.

(** X19. With a command whose arguments are incomplete (company or market
    without a name, or with an empty one; competitive with fewer than two
    further arguments) [main] returns normally after printing one usage line
    on the error stream: no call is made, no file is written and nothing is
    printed on the console. *)
Theorem main_incomplete_arguments host argv s :
  incomplete (drop 2 argv) ->
  exists usage,
    main host argv s = (Normal tt, console_error usage s).
Proof.
  unfold incomplete, main. cbv zeta. set (args := drop 2 argv).
  intros [[[Hc|Hc] Hn]|[Hc Hlen]]; rewrite Hc.
  - rewrite decide_True by reflexivity.
    assert (falsy (args !! 1%nat) = true) as -> by (destruct Hn as [->| ->]; reflexivity).
    eauto.
  - rewrite decide_False by discriminate. rewrite decide_True by reflexivity.
    assert (falsy (args !! 1%nat) = true) as -> by (destruct Hn as [->| ->]; reflexivity).
    eauto.
  - rewrite !decide_False by discriminate. rewrite decide_True by reflexivity.
    apply Nat.ltb_lt in Hlen. rewrite Hlen. eauto.
Qed.


End Cli.

Lemma main_incomplete_arguments_witness :
  exists usage,
    ResearchCli.main cannedHost ["node"; "research-agent.ts"; "company"; EmptyString] script
    = (Normal tt, ResearchCli.console_error usage script).
Proof.
  apply (main_incomplete_arguments cannedHost
           ["node"; "research-agent.ts"; "company"; EmptyString] script).
  left. split; [left; reflexivity | right; reflexivity].
Defined.


Example apple_report_file :
  ResearchCli.reportFileName cannedHost "Apple   Inc" "1761989400000"
  = "./reports/Apple_Inc_1761989400000.md" /\
  dom (ResearchCli.files
         (snd (ResearchCli.main cannedHost
                 ["node"; "research-agent.ts"; "company"; "Apple"; "Inc"] script)))
  = {[ "./reports/Apple_Inc_1761989400000.md" ]}.
Proof. split; vm_compute; reflexivity. Qed.

(** ** The follow-up sequence, from the stream to the touchpoints *)

Section FollowUpSequence.
Import FollowUp.

Lemma collect_findings stream : forall sequence,
  collect stream sequence = sequence ++ findings stream.
Proof.
  induction stream as [|message rest IH]; intros sequence; cbn [collect].
  - unfold findings. cbn. now rewrite app_nil_r.
  - unfold findings. rewrite filter_cons. case_decide.
    + rewrite IH. cbn [fmap list_fmap]. now rewrite <- app_assoc.
    + apply IH.
Qed.

(** X21. [createFollowUpSequence] makes one touchpoint per assistant message
    the service streams, in stream order and with the message as content,
    however many touchpoints the prompt asks for; messages of other types
    make none. *)
Theorem one_touchpoint_per_assistant_message host lead stream :
  sdk host (queryArgs host lead) = (stream, None) ->
  exists sequence,
    snd (createFollowUpSequence host lead) = Normal sequence /\
    length (touchpoints sequence) = length (findings stream) /\
    PreSales.content <$> touchpoints sequence = findings stream.
Proof.
  intros Hsdk. unfold createFollowUpSequence. rewrite Hsdk.
  eexists. split; [reflexivity|].
  rewrite collect_findings, app_nil_l. cbn [touchpoints formatFollowUpSequence].
  split; [apply length_imap|].
  apply list_eq. intros i.
  rewrite list_lookup_fmap, list_lookup_imap.
  now destruct (findings stream !! i).
Qed.

Lemma one_touchpoint_per_assistant_message_witness :
  exists sequence,
    snd (createFollowUpSequence followUpHost followUpLead) = Normal sequence /\
    length (touchpoints sequence) = 2%nat /\
    PreSales.content <$> touchpoints sequence = ["Day 1 email"; "Day 4 note"].
Proof.
  exact (one_touchpoint_per_assistant_message followUpHost followUpLead _ eq_refl).
Defined.

End FollowUpSequence.
